(** * AD5932 programmable frequency scan generator: driver model

    A shallow embedding of [ad5932.h] / [ad5932.c].  The driver's globals
    ([SSPPort], [ad5932CMD], [ad5932MCLK]) and everything it does to the
    outside world (pin levels, bus polls, bus transfers, delays) are threaded
    through an explicit state; the platform primitives the driver calls
    ([SSP_GetTransferStatus], [SSP_Transfer]) are an interface whose answers
    may depend on everything that happened before. *)

From Stdlib Require Import ZArith List Bool Lia.
Import ListNotations.
Local Open Scope Z_scope.

(** ** Machine integers *)

Definition u16 (x : Z) : Z := x mod 2 ^ 16.
Definition u32 (x : Z) : Z := x mod 2 ^ 32.
Definition u64 (x : Z) : Z := x mod 2 ^ 64.

(** ** Constants of ad5932.h *)

Definition AD5932_PORT_BUSY : Z := 0xFFFF.
Definition AD5932_PARAM_ERROR : Z := 0xFFF0.
Definition AD5932_ACCU_RESOLUTION : Z := 0x1000000.

(** config bits; several enumerators share one value, as in the header *)
Inductive RegBits_t : Type :=
| DAC_EN | DAC_DISABLE
| SINE_OUT | TRIANGLE_OUT
| MSBOUT_EN | MSBOUT_DISABLE
| AUTOMATIC_TRIGGER | EXTERNAL_TRIGGER
| SYNCSEL_END | SYNCSEL_SUBSEQVENT
| SYNCOUT_EN | SYNCOUT_DISABLE.

Definition RegBits_val (r : RegBits_t) : Z :=
  match r with
  | DAC_EN => 1
  | DAC_DISABLE => 0
  | SINE_OUT => 1
  | TRIANGLE_OUT => 0
  | MSBOUT_EN => 1
  | MSBOUT_DISABLE => 0
  | AUTOMATIC_TRIGGER => 0
  | EXTERNAL_TRIGGER => 1
  | SYNCSEL_END => 1
  | SYNCSEL_SUBSEQVENT => 0
  | SYNCOUT_EN => 1
  | SYNCOUT_DISABLE => 0
  end.

(** SPI control bits D15-12 *)
Inductive AD5932_ControlRegs_t : Type :=
| AD5932_CREG
| AD5932_NINCR
| AD5932_DFREQ_LO
| AD5932_DFREQ_HI
| AD5932_TINT_WCYCLES
| AD5932_TINT_MCLKCYCLES
| AD5932_FSTART_LO
| AD5932_FSTART_HI.

Definition ControlRegs_val (r : AD5932_ControlRegs_t) : Z :=
  match r with
  | AD5932_CREG => 0x0000
  | AD5932_NINCR => 0x1000
  | AD5932_DFREQ_LO => 0x2000
  | AD5932_DFREQ_HI => 0x3000
  | AD5932_TINT_WCYCLES => 0x4000
  | AD5932_TINT_MCLKCYCLES => 0x6000
  | AD5932_FSTART_LO => 0xC000
  | AD5932_FSTART_HI => 0xD000
  end.

(** Sweep type control: INCREMENTAL_SWEEP = true, DECREMENTAL_SWEEP = false *)
Inductive AD5932_SweepType_t : Type :=
| INCREMENTAL_SWEEP
| DECREMENTAL_SWEEP.

Definition SweepType_val (t : AD5932_SweepType_t) : Z :=
  match t with
  | INCREMENTAL_SWEEP => 1
  | DECREMENTAL_SWEEP => 0
  end.

(** Increment interval control: WAVE_OUT_BASED = true, MCLK_INP_BASED = false *)
Inductive AD5932_IncIntervall_t : Type :=
| WAVE_OUT_BASED
| MCLK_INP_BASED.

Definition IncIntervall_val (t : AD5932_IncIntervall_t) : Z :=
  match t with
  | WAVE_OUT_BASED => 1
  | MCLK_INP_BASED => 0
  end.

(** [AD5932_SweepGenerator] receives its sweep type in a parameter declared
    [RegBits_t] and hands it to a parameter declared [AD5932_SweepType_t].
    C carries the integer over; a [RegBits_t] is 0 or 1, which are exactly
    the values of the two sweep types. *)
Definition SweepType_of_RegBits (r : RegBits_t) : AD5932_SweepType_t :=
  if RegBits_val r =? SweepType_val DECREMENTAL_SWEEP
  then DECREMENTAL_SWEEP else INCREMENTAL_SWEEP.

(** ** The outside world *)

(** The four GPIO lines behind SPARE0_on() ... SPARE3_off(). *)
Inductive pin : Type := SPARE0 | SPARE1 | SPARE2 | SPARE3.

(** What the driver does to the platform, in the order it does it. *)
Inductive event : Type :=
| EvStatus                         (* SSP_GetTransferStatus(SSPPort) *)
| EvPin (p : pin) (level : bool)   (* SPAREn_on() / SPAREn_off() *)
| EvTransfer (word : Z)            (* SSP_Transfer(SSPPort, NULL, &word, NULL, 1, SSP_XFER_POLL) *)
| EvDelay (us : Z).                (* delay_us(us) *)

(** The SSP peripheral library is not part of the driver.  Its status constant
    and the results of its two calls are an interface: a result is the [s32]
    value the driver stores in [ret], and may depend on the port and on the
    whole history of events so far. *)
Class Platform : Type := {
  SSP_STATUS_CLEAR : Z;
  SSP_GetTransferStatus : Z -> list event -> Z;
  SSP_Transfer : Z -> list event -> Z -> Z
}.

(** Driver globals plus the event history. *)
Record state : Type := mkState {
  SSPPort : Z;
  ad5932CMD : Z;
  ad5932MCLK : Z;
  history : list event
}.

(** ** A state monad with undefined behaviour

    [None] stands for C undefined behaviour; the driver can reach it in one
    place only, the division by [ad5932MCLK]. *)

Definition M (A : Type) : Type := state -> option (A * state).

Definition ret {A : Type} (a : A) : M A := fun s => Some (a, s).

Definition bind {A B : Type} (m : M A) (k : A -> M B) : M B :=
  fun s => match m s with
           | Some (a, s') => k a s'
           | None => None
           end.

Notation "x <- m ;; k" := (bind m (fun x => k))
  (at level 61, m at next level, right associativity).
Notation "m ;;; k" := (bind m (fun _ => k))
  (at level 61, right associativity).

Definition undefined {A : Type} : M A := fun _ => None.

Definition emit (e : event) : M unit :=
  fun s => Some (tt, mkState (SSPPort s) (ad5932CMD s) (ad5932MCLK s)
                             (history s ++ [e])).

Definition get_CMD : M Z := fun s => Some (ad5932CMD s, s).
Definition get_MCLK : M Z := fun s => Some (ad5932MCLK s, s).

Definition set_CMD (w : Z) : M unit :=
  fun s => Some (tt, mkState (SSPPort s) w (ad5932MCLK s) (history s)).
Definition set_MCLK (f : Z) : M unit :=
  fun s => Some (tt, mkState (SSPPort s) (ad5932CMD s) f (history s)).
Definition set_SSPPort (p : Z) : M unit :=
  fun s => Some (tt, mkState p (ad5932CMD s) (ad5932MCLK s) (history s)).

(** Unsigned 64-bit division; dividing by zero is undefined. *)
Definition div_u64 (a b : Z) : M Z :=
  if b =? 0 then undefined else ret (a / b).

Definition when (b : bool) (m : M unit) : M unit :=
  if b then m else ret tt.

(** Reading a history back. *)

Fixpoint transfers (h : list event) : list Z :=
  match h with
  | [] => []
  | EvTransfer w :: t => w :: transfers t
  | _ :: t => transfers t
  end.

(** One framed word on the bus: poll, FSYNC low, word, FSYNC high. *)
Definition frame (w : Z) : list event :=
  [EvStatus; EvPin SPARE0 false; EvTransfer w; EvPin SPARE0 true].

(** The trigger pulse on CTRL. *)
Definition pulse : list event :=
  [EvPin SPARE2 true; EvDelay 100; EvPin SPARE2 false].

(** Fields of a command word. *)
Definition selector (w : Z) : Z := Z.shiftr w 12.
Definition payload (w : Z) : Z := Z.land w 0xFFF.

(** ** The driver *)

Section Driver.

Context {P : Platform}.

Definition call_SSP_GetTransferStatus : M Z :=
  fun s => Some (SSP_GetTransferStatus (SSPPort s) (history s),
                 mkState (SSPPort s) (ad5932CMD s) (ad5932MCLK s)
                         (history s ++ [EvStatus])).

Definition call_SSP_Transfer (word : Z) : M Z :=
  fun s => Some (SSP_Transfer (SSPPort s) (history s) word,
                 mkState (SSPPort s) (ad5932CMD s) (ad5932MCLK s)
                         (history s ++ [EvTransfer word])).

Definition AD5932_SetSPI (SSPx : Z) : M unit :=
  set_SSPPort SSPx.

Definition AD5932_SetFSYNCPin (st : bool) : M unit :=
  if st then emit (EvPin SPARE0 true) else emit (EvPin SPARE0 false).

Definition AD5932_SetCTRLPin (st : bool) : M unit :=
  if st then emit (EvPin SPARE2 true) else emit (EvPin SPARE2 false).

Definition AD5932_SetINTPin (st : bool) : M unit :=
  if st then emit (EvPin SPARE3 true) else emit (EvPin SPARE3 false).

Definition AD5932_SetSTDBYPin (st : bool) : M unit :=
  if st then emit (EvPin SPARE1 true) else emit (EvPin SPARE1 false).

Definition AD5932_SendSPICommand (commandWord : Z) : M Z :=
  let commandWord := u16 commandWord in
  r <- call_SSP_GetTransferStatus ;;
  if r =? SSP_STATUS_CLEAR then
    AD5932_SetFSYNCPin false ;;;
    r <- call_SSP_Transfer commandWord ;;
    AD5932_SetFSYNCPin true ;;;
    if r >? 0 then ret 0 else ret r
  else
    ret AD5932_PORT_BUSY.

Definition AD5932_Init (MCLK : Z) : M unit :=
  let MCLK := u32 MCLK in
  AD5932_SetCTRLPin false ;;;
  AD5932_SetINTPin false ;;;
  AD5932_SetFSYNCPin true ;;;
  AD5932_SetSTDBYPin false ;;;
  set_MCLK MCLK.

Definition AD5932_SetControlRegister
  (DAC_STATE WAVE_TYPE MBSOUT_STATE TRIGGER_TYPE SYNCSEL_STATE SYNCOUT_STATE : RegBits_t)
  : M Z :=
  let temp := 1 in
  let temp := u16 (Z.lor temp (Z.shiftl 1 1)) in
  let temp := u16 (Z.lor temp (Z.shiftl (RegBits_val SYNCOUT_STATE) 2)) in
  let temp := u16 (Z.lor temp (Z.shiftl (RegBits_val SYNCSEL_STATE) 3)) in
  let temp := u16 (Z.lor temp (Z.shiftl 1 4)) in
  let temp := u16 (Z.lor temp (Z.shiftl (RegBits_val TRIGGER_TYPE) 5)) in
  let temp := u16 (Z.lor temp (Z.shiftl 1 6)) in
  let temp := u16 (Z.lor temp (Z.shiftl 1 7)) in
  let temp := u16 (Z.lor temp (Z.shiftl (RegBits_val MBSOUT_STATE) 8)) in
  let temp := u16 (Z.lor temp (Z.shiftl (RegBits_val WAVE_TYPE) 9)) in
  let temp := u16 (Z.lor temp (Z.shiftl (RegBits_val DAC_STATE) 10)) in
  let temp := u16 (Z.lor temp (Z.shiftl 1 11)) in
  set_CMD (u16 (Z.lor (ControlRegs_val AD5932_CREG) temp)) ;;;
  cmd <- get_CMD ;;
  AD5932_SendSPICommand cmd.

Definition AD5932_SetIncrement (value : Z) : M Z :=
  let value := u16 value in
  if (value >? 4095) || (value <? 2) then
    ret AD5932_PARAM_ERROR
  else
    set_CMD (u16 (Z.lor (ControlRegs_val AD5932_NINCR) value)) ;;;
    cmd <- get_CMD ;;
    AD5932_SendSPICommand cmd.

Definition AD5932_SetIncrementIntervall
  (value : Z) (incrementBase : AD5932_IncIntervall_t) : M Z :=
  let value := u16 value in
  if (value >? 2047) || (value <? 2) then
    ret AD5932_PARAM_ERROR
  else
    (if IncIntervall_val incrementBase =? IncIntervall_val WAVE_OUT_BASED then
       set_CMD (u16 (Z.lor (ControlRegs_val AD5932_TINT_WCYCLES) value))
     else
       set_CMD (u16 (Z.lor (IncIntervall_val MCLK_INP_BASED) value))) ;;;
    cmd <- get_CMD ;;
    AD5932_SendSPICommand cmd.

Definition AD5932_SetDeltaFrequency
  (value : Z) (SweepType : AD5932_SweepType_t) : M Z :=
  let value := u32 value in
  if value >? 0x7FFFFFFF then
    ret AD5932_PARAM_ERROR
  else
    mclk <- get_MCLK ;;
    q <- div_u64 (u64 (u64 value * AD5932_ACCU_RESOLUTION)) (u64 mclk) ;;
    let tmp := u32 q in
    set_CMD (u16 (Z.lor (ControlRegs_val AD5932_DFREQ_LO) (Z.land tmp 0x00000FFF))) ;;;
    cmd <- get_CMD ;;
    r <- AD5932_SendSPICommand cmd ;;
    if r =? AD5932_PORT_BUSY then
      ret r
    else
      set_CMD (u16 (Z.lor (ControlRegs_val AD5932_DFREQ_HI)
                          (Z.land (Z.shiftr tmp 12) 0x00000FFF))) ;;;
      when (SweepType_val SweepType =? SweepType_val DECREMENTAL_SWEEP)
           (cmd <- get_CMD ;; set_CMD (u16 (Z.lor cmd (Z.shiftl 1 11)))) ;;;
      cmd <- get_CMD ;;
      r <- AD5932_SendSPICommand cmd ;;
      if r =? AD5932_PORT_BUSY then
        ret r
      else
        ret 0.

Definition AD5932_SetStartFrequency (value : Z) : M Z :=
  let value := u32 value in
  if (value >? 0x7FFFFFFF) || (value <? 1) then
    ret AD5932_PARAM_ERROR
  else
    mclk <- get_MCLK ;;
    q <- div_u64 (u64 (u64 value * AD5932_ACCU_RESOLUTION)) (u64 mclk) ;;
    let tmp := u32 q in
    set_CMD (u16 (Z.lor (ControlRegs_val AD5932_FSTART_LO) (Z.land tmp 0x00000FFF))) ;;;
    cmd <- get_CMD ;;
    r <- AD5932_SendSPICommand cmd ;;
    if r =? AD5932_PORT_BUSY then
      ret r
    else
      set_CMD (u16 (Z.lor (ControlRegs_val AD5932_FSTART_HI)
                          (Z.land (Z.shiftr tmp 12) 0x00000FFF))) ;;;
      cmd <- get_CMD ;;
      r <- AD5932_SendSPICommand cmd ;;
      if r =? AD5932_PORT_BUSY then
        ret r
      else
        ret 0.

Definition AD5932_TriggerCTRLPin : M unit :=
  AD5932_SetCTRLPin true ;;;
  emit (EvDelay 100) ;;;
  AD5932_SetCTRLPin false.

Definition AD5932_SingleFrequencyGenerator
  (frequency : Z) (WAVE_TYPE MSBOUT TRIGGER : RegBits_t) : M Z :=
  let frequency := u32 frequency in
  AD5932_SetCTRLPin false ;;;
  r <- AD5932_SetControlRegister DAC_EN WAVE_TYPE MSBOUT EXTERNAL_TRIGGER
                                 SYNCSEL_END SYNCOUT_EN ;;
  if r <? 0 then ret (-1) else
  r <- AD5932_SetStartFrequency frequency ;;
  if r <? 0 then ret (-2) else
  when (RegBits_val TRIGGER =? RegBits_val AUTOMATIC_TRIGGER)
       AD5932_TriggerCTRLPin ;;;
  ret 0.

Definition AD5932_SweepGenerator
  (startFreq deltaFrerq increment : Z) (INCRTYPE : AD5932_IncIntervall_t)
  (incIntervall : Z)
  (SWEEPTYPE WAVE_TYPE MSBOUT TRIGGER SYNCSEL SYNCOUT : RegBits_t) : M Z :=
  let startFreq := u32 startFreq in
  let deltaFrerq := u32 deltaFrerq in
  let increment := u32 increment in
  let incIntervall := u32 incIntervall in
  AD5932_SetCTRLPin false ;;;
  r <- AD5932_SetControlRegister DAC_EN WAVE_TYPE MSBOUT TRIGGER SYNCSEL SYNCOUT ;;
  if r <? 0 then ret (-1) else
  r <- AD5932_SetStartFrequency startFreq ;;
  if r <? 0 then ret (-2) else
  r <- AD5932_SetDeltaFrequency deltaFrerq (SweepType_of_RegBits SWEEPTYPE) ;;
  if r <? 0 then ret (-3) else
  r <- AD5932_SetIncrementIntervall incIntervall INCRTYPE ;;
  if r <? 0 then ret (-4) else
  r <- AD5932_SetIncrement increment ;;
  if r <? 0 then ret (-5) else
  when (RegBits_val TRIGGER =? RegBits_val AUTOMATIC_TRIGGER)
       AD5932_TriggerCTRLPin ;;;
  ret 0.

Definition AD5932_TestSetup : M Z :=
  AD5932_SetCTRLPin false ;;;
  r <- AD5932_SetControlRegister DAC_EN SINE_OUT MSBOUT_EN AUTOMATIC_TRIGGER
                                 SYNCSEL_END SYNCOUT_EN ;;
  if r <? 0 then ret (-1) else
  r <- AD5932_SetStartFrequency 1000 ;;
  if r <? 0 then ret (-2) else
  r <- AD5932_SetDeltaFrequency 1000 INCREMENTAL_SWEEP ;;
  if r <? 0 then ret (-3) else
  r <- AD5932_SetIncrementIntervall 2000 WAVE_OUT_BASED ;;
  if r <? 0 then ret (-4) else
  r <- AD5932_SetIncrement 2 ;;
  if r <? 0 then ret (-5) else
  AD5932_TriggerCTRLPin ;;;
  ret 0.

End Driver.

(** ** Three concrete platforms *)

(** The bus is always free and every transfer moves its one frame. *)
Definition ideal_bus : Platform :=
  {| SSP_STATUS_CLEAR := 0;
     SSP_GetTransferStatus := fun _ _ => 0;
     SSP_Transfer := fun _ _ _ => 1 |}.

(** The bus is always free and every transfer reports the error -1. *)
Definition faulty_bus : Platform :=
  {| SSP_STATUS_CLEAR := 0;
     SSP_GetTransferStatus := fun _ _ => 0;
     SSP_Transfer := fun _ _ _ => -1 |}.

(** The bus is never free. *)
Definition busy_bus : Platform :=
  {| SSP_STATUS_CLEAR := 0;
     SSP_GetTransferStatus := fun _ _ => 1;
     SSP_Transfer := fun _ _ _ => 1 |}.

(** The state at power-up, before [AD5932_Init] has run. *)
Definition power_up : state := mkState 0 0 0 [].

(** A driver whose clock has been set to [mclk], seen from an empty history. *)
Definition ready (mclk : Z) : state := mkState 0 0 mclk [].


(** ** Vocabulary for the statements *)

(** [s] after the events [evs]. *)
Definition push (s : state) (evs : list event) : state :=
  mkState (SSPPort s) (ad5932CMD s) (ad5932MCLK s) (history s ++ evs).

(** [s] after the events [evs], with [w] left in [ad5932CMD]. *)
Definition push_cmd (s : state) (w : Z) (evs : list event) : state :=
  mkState (SSPPort s) w (ad5932MCLK s) (history s ++ evs).

(** The accumulator word both frequency setters compute into [tmp]. *)
Definition accu (value mclk : Z) : Z :=
  u32 (u64 (u64 value * AD5932_ACCU_RESOLUTION) / u64 mclk).

(** The two 16-bit words built from [tmp] for a LOW and a HIGH register. *)
Definition lo_word (reg : AD5932_ControlRegs_t) (tmp : Z) : Z :=
  u16 (Z.lor (ControlRegs_val reg) (Z.land tmp 0x00000FFF)).
Definition hi_word (reg : AD5932_ControlRegs_t) (tmp : Z) : Z :=
  u16 (Z.lor (ControlRegs_val reg) (Z.land (Z.shiftr tmp 12) 0x00000FFF)).

(** The delta-frequency HIGH word once the sweep type has been looked at. *)
Definition dfreq_hi_word (tmp : Z) (SweepType : AD5932_SweepType_t) : Z :=
  match SweepType with
  | DECREMENTAL_SWEEP => u16 (Z.lor (hi_word AD5932_DFREQ_HI tmp) (Z.shiftl 1 11))
  | INCREMENTAL_SWEEP => hi_word AD5932_DFREQ_HI tmp
  end.

(** What [AD5932_SendSPICommand] returns for a transfer result [r]. *)
Definition reported (r : Z) : Z := Z.min 0 r.

(** [s] with [w] left in [ad5932CMD]. *)
Definition with_CMD (s : state) (w : Z) : state :=
  mkState (SSPPort s) w (ad5932MCLK s) (history s).

(** A flag read as a bit. *)
Definition RegBits_set (r : RegBits_t) : bool := RegBits_val r =? 1.

(** The control word as the protocol lays it out (payload bits 11:0):
    bit0=1, bit1=1, bit2=sync-out enable, bit3=sync-select, bit4=1,
    bit5=trigger type, bit6=1, bit7=1, bit8=MSB-out enable,
    bit9=waveform shape, bit10=DAC enable, bit11=1; selector 0000. *)
Definition control_word_spec
  (DAC_STATE WAVE_TYPE MBSOUT_STATE TRIGGER_TYPE SYNCSEL_STATE SYNCOUT_STATE : RegBits_t)
  : Z :=
  1 + 2 + 4 * RegBits_val SYNCOUT_STATE + 8 * RegBits_val SYNCSEL_STATE + 16
  + 32 * RegBits_val TRIGGER_TYPE + 64 + 128 + 256 * RegBits_val MBSOUT_STATE
  + 512 * RegBits_val WAVE_TYPE + 1024 * RegBits_val DAC_STATE + 2048.

(** The reading of "the two emitted words carry floor(f * 2^24 / mclk)":
    between [before] and [after] exactly two words went out, and their
    payloads put together as high*4096 + low give that quotient, below 2^24. *)
Definition carries_accumulator (before after : state) (f : Z) : Prop :=
  exists lo hi,
    transfers (history after) = transfers (history before) ++ [lo; hi] /\
    payload hi * 4096 + payload lo = f * 2 ^ 24 / ad5932MCLK before /\
    payload hi * 4096 + payload lo < 2 ^ 24.

(** [s'] is [s] some events later: same port, same clock, longer history. *)
Definition later (s s' : state) : Prop :=
  SSPPort s' = SSPPort s /\
  ad5932MCLK s' = ad5932MCLK s /\
  exists evs, history s' = history s ++ evs.

(** [AD5932_SweepGenerator] takes its sweep type as a [RegBits_t]; callers
    write INCREMENTAL_SWEEP or DECREMENTAL_SWEEP there.  This is the
    [RegBits_t] with the same integer value. *)
Definition RegBits_of_SweepType (t : AD5932_SweepType_t) : RegBits_t :=
  match t with
  | INCREMENTAL_SWEEP => DAC_EN
  | DECREMENTAL_SWEEP => DAC_DISABLE
  end.

(** FSYNC across a run of events.  [low] tells whether FSYNC is low when the
    run starts; the result is its level when the run ends, or [None] when a
    word was transferred while FSYNC was high. *)
Fixpoint fsync_run (low : bool) (h : list event) : option bool :=
  match h with
  | [] => Some low
  | EvPin SPARE0 level :: t => fsync_run (negb level) t
  | EvTransfer _ :: t => if low then fsync_run low t else None
  | _ :: t => fsync_run low t
  end.

(** A value that fits 16 bits. *)
Definition word16 (w : Z) : bool := (0 <=? w) && (w <? 2 ^ 16).

(** Events on the serial bus: polls, FSYNC edges, transfers. *)
Definition bus_event (e : event) : bool :=
  match e with
  | EvStatus => true
  | EvPin SPARE0 _ => true
  | EvTransfer _ => true
  | _ => false
  end.

(** A run of bus events that starts and ends with FSYNC high, transfers at
    most [n] words, each of 16 bits, and each while FSYNC is low. *)
Definition bus_trace (n : nat) (evs : list event) : Prop :=
  forallb bus_event evs = true /\
  fsync_run false evs = Some false /\
  forallb word16 (transfers evs) = true /\
  (length (transfers evs) <= n)%nat.

(** [s'] is [s] after such a run: same port, same clock. *)
Definition bus_step (n : nat) (s s' : state) : Prop :=
  SSPPort s' = SSPPort s /\
  ad5932MCLK s' = ad5932MCLK s /\
  exists evs, history s' = history s ++ evs /\ bus_trace n evs.

(** What a sequencer run from [s] to [s'] with result [r] looks like: CTRL is
    driven low, then comes a bus run of at most [n] words, then the trigger
    pulse if and only if the result is 0 and the trigger is automatic; port
    and clock are untouched. *)
Definition sequencer_run
  (n : nat) (TRIGGER : RegBits_t) (s : state) (r : Z) (s' : state) : Prop :=
  SSPPort s' = SSPPort s /\
  ad5932MCLK s' = ad5932MCLK s /\
  exists evs,
    bus_trace n evs /\
    history s' =
    history s ++ [EvPin SPARE2 false] ++ evs ++
    (if (r =? 0) && (RegBits_val TRIGGER =? RegBits_val AUTOMATIC_TRIGGER)
     then pulse else []).

(** The bus is always free; a transfer reports the error -1 for an
    increment-count word (selector 0001) and succeeds for any other word. *)
Definition count_faulty_bus : Platform :=
  {| SSP_STATUS_CLEAR := 0;
     SSP_GetTransferStatus := fun _ _ => 0;
     SSP_Transfer := fun _ _ w => if selector w =? 1 then -1 else 1 |}.

(** One call of a function of the driver other than [AD5932_Init], taking
    the driver from [s] to [s']. *)
Inductive driver_call {P : Platform} (s s' : state) : Prop :=
| call_SetSPI (SSPx : Z) :
    AD5932_SetSPI SSPx s = Some (tt, s') -> driver_call s s'
| call_SetFSYNCPin (level : bool) :
    AD5932_SetFSYNCPin level s = Some (tt, s') -> driver_call s s'
| call_SetCTRLPin (level : bool) :
    AD5932_SetCTRLPin level s = Some (tt, s') -> driver_call s s'
| call_SetINTPin (level : bool) :
    AD5932_SetINTPin level s = Some (tt, s') -> driver_call s s'
| call_SetSTDBYPin (level : bool) :
    AD5932_SetSTDBYPin level s = Some (tt, s') -> driver_call s s'
| call_SendSPICommand (commandWord r : Z) :
    AD5932_SendSPICommand commandWord s = Some (r, s') -> driver_call s s'
| call_SetControlRegister (D W M T SL SO : RegBits_t) (r : Z) :
    AD5932_SetControlRegister D W M T SL SO s = Some (r, s') ->
    driver_call s s'
| call_SetIncrement (value r : Z) :
    AD5932_SetIncrement value s = Some (r, s') -> driver_call s s'
| call_SetIncrementIntervall (value : Z) (b : AD5932_IncIntervall_t) (r : Z) :
    AD5932_SetIncrementIntervall value b s = Some (r, s') -> driver_call s s'
| call_SetDeltaFrequency (value : Z) (t : AD5932_SweepType_t) (r : Z) :
    AD5932_SetDeltaFrequency value t s = Some (r, s') -> driver_call s s'
| call_SetStartFrequency (value r : Z) :
    AD5932_SetStartFrequency value s = Some (r, s') -> driver_call s s'
| call_TriggerCTRLPin :
    AD5932_TriggerCTRLPin s = Some (tt, s') -> driver_call s s'
| call_SingleFrequencyGenerator
    (frequency : Z) (WAVE_TYPE MSBOUT TRIGGER : RegBits_t) (r : Z) :
    AD5932_SingleFrequencyGenerator frequency WAVE_TYPE MSBOUT TRIGGER s =
      Some (r, s') ->
    driver_call s s'
| call_SweepGenerator
    (startFreq deltaFrerq increment : Z) (INCRTYPE : AD5932_IncIntervall_t)
    (incIntervall : Z)
    (SWEEPTYPE WAVE_TYPE MSBOUT TRIGGER SYNCSEL SYNCOUT : RegBits_t) (r : Z) :
    AD5932_SweepGenerator startFreq deltaFrerq increment INCRTYPE incIntervall
      SWEEPTYPE WAVE_TYPE MSBOUT TRIGGER SYNCSEL SYNCOUT s = Some (r, s') ->
    driver_call s s'
| call_TestSetup (r : Z) :
    AD5932_TestSetup s = Some (r, s') -> driver_call s s'.

(** Any number of such calls, one after the other. *)
Inductive driver_calls {P : Platform} : state -> state -> Prop :=
| calls_none (s : state) : driver_calls s s
| calls_more (s s1 s2 : state) :
    driver_calls s s1 -> driver_call s1 s2 -> driver_calls s s2.

(** ** Machine words *)

Lemma u16_small (x : Z) : 0 <= x < 2 ^ 16 -> u16 x = x.
Proof. intros H. unfold u16. now apply Z.mod_small. Qed.

Lemma u32_small (x : Z) : 0 <= x < 2 ^ 32 -> u32 x = x.
Proof. intros H. unfold u32. now apply Z.mod_small. Qed.

Lemma u64_small (x : Z) : 0 <= x < 2 ^ 64 -> u64 x = x.
Proof. intros H. unfold u64. now apply Z.mod_small. Qed.

Lemma land_low12 (x : Z) : Z.land x 0xFFF = x mod 4096.
Proof. change 0xFFF with (Z.ones 12). now rewrite Z.land_ones by lia. Qed.

Lemma shiftr_12 (x : Z) : Z.shiftr x 12 = x / 4096.
Proof. now rewrite Z.shiftr_div_pow2 by lia. Qed.

Lemma small_bits_above (p n : Z) :
  0 <= p < 2 ^ n -> forall i, n <= i -> Z.testbit p i = false.
Proof.
  intros [Hp Hlt] i Hi.
  destruct (Z.eq_dec p 0) as [->|Hnz]; [apply Z.bits_0|].
  apply Z.bits_above_log2; [lia|].
  assert (Z.log2 p < n) by (apply Z.log2_lt_pow2; lia). lia.
Qed.

(** OR-ing a payload below a 4-bit selector adds the two. *)
Lemma lor_selector (k p : Z) :
  0 <= p < 4096 -> Z.lor (k * 4096) p = k * 4096 + p.
Proof.
  intros Hp.
  assert (Hland : Z.land (k * 4096) p = 0).
  { apply Z.bits_inj'. intros i Hi.
    rewrite Z.land_spec, Z.bits_0.
    destruct (Z_lt_le_dec i 12) as [Hlo|Hhi].
    - change 4096 with (2 ^ 12).
      rewrite Z.mul_pow2_bits_low by lia. reflexivity.
    - rewrite (small_bits_above p 12) by (change (2 ^ 12) with 4096; lia).
      apply andb_false_r. }
  rewrite <- Z.lxor_lor by exact Hland.
  symmetry. now apply Z.add_nocarry_lxor.
Qed.

Lemma ControlRegs_val_selector (reg : AD5932_ControlRegs_t) :
  exists k, 0 <= k < 16 /\ ControlRegs_val reg = k * 4096.
Proof.
  destruct reg;
    [exists 0 | exists 1 | exists 2 | exists 3
    | exists 4 | exists 6 | exists 12 | exists 13];
    split; (lia || reflexivity).
Qed.

(** A selector OR a 12-bit payload fits 16 bits and is their sum. *)
Lemma reg_word (reg : AD5932_ControlRegs_t) (p : Z) :
  0 <= p < 4096 ->
  u16 (Z.lor (ControlRegs_val reg) p) = ControlRegs_val reg + p.
Proof.
  intros Hp. destruct (ControlRegs_val_selector reg) as (k & Hk & ->).
  rewrite lor_selector by exact Hp.
  apply u16_small. change (2 ^ 16) with 65536. lia.
Qed.

Lemma selector_reg_word (reg : AD5932_ControlRegs_t) (p : Z) :
  0 <= p < 4096 ->
  selector (ControlRegs_val reg + p) = ControlRegs_val reg / 4096.
Proof.
  intros Hp. unfold selector. rewrite shiftr_12.
  destruct (ControlRegs_val_selector reg) as (k & Hk & ->).
  rewrite Z.div_add_l, Z.div_small, Z.div_mul by lia. lia.
Qed.

Lemma payload_reg_word (reg : AD5932_ControlRegs_t) (p : Z) :
  0 <= p < 4096 -> payload (ControlRegs_val reg + p) = p.
Proof.
  intros Hp. unfold payload. rewrite land_low12.
  destruct (ControlRegs_val_selector reg) as (k & Hk & ->).
  rewrite Z.add_comm, Z.mod_add by lia. now apply Z.mod_small.
Qed.

Lemma lo_word_eq (reg : AD5932_ControlRegs_t) (tmp : Z) :
  lo_word reg tmp = ControlRegs_val reg + tmp mod 4096.
Proof.
  unfold lo_word. change 0x00000FFF with 0xFFF. rewrite land_low12.
  apply reg_word. apply Z.mod_pos_bound. lia.
Qed.

Lemma hi_word_eq (reg : AD5932_ControlRegs_t) (tmp : Z) :
  hi_word reg tmp = ControlRegs_val reg + (tmp / 4096) mod 4096.
Proof.
  unfold hi_word. change 0x00000FFF with 0xFFF.
  rewrite land_low12, shiftr_12.
  apply reg_word. apply Z.mod_pos_bound. lia.
Qed.

(** The two payloads put back together give the low 24 bits of [tmp]. *)
Lemma payloads_rebuild (lo hi : AD5932_ControlRegs_t) (tmp : Z) :
  payload (hi_word hi tmp) * 4096 + payload (lo_word lo tmp) = tmp mod 2 ^ 24.
Proof.
  rewrite lo_word_eq, hi_word_eq.
  rewrite !payload_reg_word by (apply Z.mod_pos_bound; lia).
  change (2 ^ 24) with (4096 * 4096).
  rewrite Z.rem_mul_r by lia. lia.
Qed.

(** The quotient the frequency setters compute, without the wrap-arounds. *)
Lemma accu_exact (value mclk : Z) :
  0 <= value <= 0x7FFFFFFF -> 0 < mclk < 2 ^ 32 -> value < 2 ^ 8 * mclk ->
  accu value mclk = value * 2 ^ 24 / mclk.
Proof.
  intros Hv Hm Hlt. unfold accu, AD5932_ACCU_RESOLUTION.
  change 0x1000000 with (2 ^ 24).
  rewrite (u64_small value) by lia.
  rewrite (u64_small mclk) by lia.
  rewrite (u64_small (value * 2 ^ 24)) by lia.
  apply u32_small. split.
  - apply Z.div_pos; lia.
  - apply Z.div_lt_upper_bound; lia.
Qed.

Lemma accu_below_24 (value mclk : Z) :
  0 <= value -> value < mclk -> value * 2 ^ 24 / mclk < 2 ^ 24.
Proof. intros Hv Hlt. apply Z.div_lt_upper_bound; lia. Qed.

(** ** Running the driver *)

Ltac run :=
  cbv beta iota zeta delta
    [bind ret undefined emit get_CMD get_MCLK set_CMD set_MCLK set_SSPPort
     when call_SSP_GetTransferStatus call_SSP_Transfer
     AD5932_SetFSYNCPin AD5932_SetCTRLPin AD5932_SetINTPin AD5932_SetSTDBYPin
     AD5932_TriggerCTRLPin push push_cmd with_CMD];
  cbn [SSPPort ad5932CMD ad5932MCLK history].

Lemma reported_not_busy (r : Z) : (reported r =? AD5932_PORT_BUSY) = false.
Proof. apply Z.eqb_neq. unfold reported, AD5932_PORT_BUSY. lia. Qed.

Lemma reported_ok (r : Z) : 0 <= r -> reported r = 0.
Proof. unfold reported. lia. Qed.

Lemma app_assoc3 (h a b : list event) : (h ++ a) ++ b = h ++ a ++ b.
Proof. symmetry. apply app_assoc. Qed.

Section Protocol.

Context {P : Platform}.

(** The word handed to the bus is the argument cut to 16 bits; the global
    [ad5932CMD] is not touched by the transmission. *)
Lemma SendSPICommand_busy (w : Z) (s : state) :
  SSP_GetTransferStatus (SSPPort s) (history s) <> SSP_STATUS_CLEAR ->
  AD5932_SendSPICommand w s = Some (AD5932_PORT_BUSY, push s [EvStatus]).
Proof.
  intros Hbusy. unfold AD5932_SendSPICommand. run.
  apply Z.eqb_neq in Hbusy. rewrite Hbusy. reflexivity.
Qed.

Lemma SendSPICommand_clear (w : Z) (s : state) :
  SSP_GetTransferStatus (SSPPort s) (history s) = SSP_STATUS_CLEAR ->
  AD5932_SendSPICommand w s =
  Some (reported (SSP_Transfer (SSPPort s)
                    (history s ++ [EvStatus; EvPin SPARE0 false]) (u16 w)),
        push s (frame (u16 w))).
Proof.
  intros Hclear. unfold AD5932_SendSPICommand. run.
  rewrite Hclear, Z.eqb_refl. run.
  rewrite !app_assoc3. cbn [app].
  set (r := SSP_Transfer _ _ _). unfold reported, frame.
  destruct (Z.gtb_spec r 0) as [Hr|Hr]; run; repeat f_equal; lia.
Qed.

End Protocol.

(** Initialisation drives the four lines and stores the clock as a [u32], so
    the stored clock is always below 2^32. *)
Lemma Init_stores_clock {P : Platform} (MCLK : Z) (s : state) :
  AD5932_Init MCLK s =
    Some (tt, mkState (SSPPort s) (ad5932CMD s) (u32 MCLK)
                (history s ++ [EvPin SPARE2 false; EvPin SPARE3 false;
                               EvPin SPARE0 true; EvPin SPARE1 false])) /\
  0 <= u32 MCLK < 2 ^ 32.
Proof.
  split.
  - unfold AD5932_Init. run. rewrite !app_assoc3. reflexivity.
  - unfold u32. apply Z.mod_pos_bound. lia.
Qed.

(** ** The single-word setters, on any bus *)

Lemma RegBits_val_01 (r : RegBits_t) : RegBits_val r = 0 \/ RegBits_val r = 1.
Proof. destruct r; auto. Qed.

Lemma u16_idem (x : Z) : u16 (u16 x) = u16 x.
Proof. unfold u16. apply Z.mod_mod. lia. Qed.

Lemma u32_idem (x : Z) : u32 (u32 x) = u32 x.
Proof. unfold u32. apply Z.mod_mod. lia. Qed.

Lemma lo_word_u16 (reg : AD5932_ControlRegs_t) (tmp : Z) :
  u16 (lo_word reg tmp) = lo_word reg tmp.
Proof. apply u16_idem. Qed.

Lemma hi_word_u16 (reg : AD5932_ControlRegs_t) (tmp : Z) :
  u16 (hi_word reg tmp) = hi_word reg tmp.
Proof. apply u16_idem. Qed.

Lemma dfreq_hi_word_u16 (tmp : Z) (t : AD5932_SweepType_t) :
  u16 (dfreq_hi_word tmp t) = dfreq_hi_word tmp t.
Proof. destruct t; apply u16_idem. Qed.

Lemma control_word_spec_u16 (D W M T SL SO : RegBits_t) :
  u16 (control_word_spec D W M T SL SO) = control_word_spec D W M T SL SO.
Proof.
  unfold control_word_spec.
  destruct (RegBits_val_01 D) as [-> | ->], (RegBits_val_01 W) as [-> | ->],
    (RegBits_val_01 M) as [-> | ->], (RegBits_val_01 T) as [-> | ->],
    (RegBits_val_01 SL) as [-> | ->], (RegBits_val_01 SO) as [-> | ->];
    reflexivity.
Qed.

Section Setters.

Context {P : Platform}.

(** The control-register setter builds the protocol's word, whatever the bus
    does afterwards. *)
Lemma SetControlRegister_word (D W M T SL SO : RegBits_t) (s : state) :
  AD5932_SetControlRegister D W M T SL SO s =
  AD5932_SendSPICommand (control_word_spec D W M T SL SO)
                        (with_CMD s (control_word_spec D W M T SL SO)).
Proof.
  unfold AD5932_SetControlRegister, with_CMD. run.
  match goal with
  | |- AD5932_SendSPICommand ?w _ = _ =>
      assert (Hw : w = control_word_spec D W M T SL SO)
  end.
  { unfold control_word_spec.
    destruct (RegBits_val_01 D) as [-> | ->], (RegBits_val_01 W) as [-> | ->],
      (RegBits_val_01 M) as [-> | ->], (RegBits_val_01 T) as [-> | ->],
      (RegBits_val_01 SL) as [-> | ->], (RegBits_val_01 SO) as [-> | ->];
      reflexivity. }
  rewrite Hw. reflexivity.
Qed.

Lemma SetIncrement_rejects (value : Z) (s : state) :
  u16 value < 2 \/ 4095 < u16 value ->
  AD5932_SetIncrement value s = Some (AD5932_PARAM_ERROR, s).
Proof.
  intros H. unfold AD5932_SetIncrement. run.
  destruct (Z.gtb_spec (u16 value) 4095), (Z.ltb_spec (u16 value) 2);
    try reflexivity; lia.
Qed.

Lemma SetIncrement_word (value : Z) (s : state) :
  2 <= u16 value <= 4095 ->
  AD5932_SetIncrement value s =
  AD5932_SendSPICommand (ControlRegs_val AD5932_NINCR + u16 value)
                        (with_CMD s (ControlRegs_val AD5932_NINCR + u16 value)).
Proof.
  intros H. unfold AD5932_SetIncrement, with_CMD. run.
  destruct (Z.gtb_spec (u16 value) 4095), (Z.ltb_spec (u16 value) 2);
    try lia.
  cbn [orb]. run. rewrite reg_word by lia. reflexivity.
Qed.

Lemma SetIncrementIntervall_rejects
  (value : Z) (b : AD5932_IncIntervall_t) (s : state) :
  u16 value < 2 \/ 2047 < u16 value ->
  AD5932_SetIncrementIntervall value b s = Some (AD5932_PARAM_ERROR, s).
Proof.
  intros H. unfold AD5932_SetIncrementIntervall. run.
  destruct (Z.gtb_spec (u16 value) 2047), (Z.ltb_spec (u16 value) 2);
    try reflexivity; lia.
Qed.

(** The word the interval setter builds: the waveform-cycle selector for
    [WAVE_OUT_BASED]; for [MCLK_INP_BASED] the value of that enumerator
    itself, which is 0. *)
Lemma SetIncrementIntervall_word
  (value : Z) (b : AD5932_IncIntervall_t) (s : state) :
  2 <= u16 value <= 2047 ->
  AD5932_SetIncrementIntervall value b s =
  let w := match b with
           | WAVE_OUT_BASED => ControlRegs_val AD5932_TINT_WCYCLES + u16 value
           | MCLK_INP_BASED => u16 value
           end in
  AD5932_SendSPICommand w (with_CMD s w).
Proof.
  intros H. unfold AD5932_SetIncrementIntervall, with_CMD. run.
  destruct (Z.gtb_spec (u16 value) 2047), (Z.ltb_spec (u16 value) 2);
    try lia.
  cbn [orb]. destruct b; cbn [IncIntervall_val Z.eqb Pos.eqb]; run.
  - rewrite reg_word by lia. reflexivity.
  - rewrite Z.lor_0_l, u16_idem. reflexivity.
Qed.

Lemma SetStartFrequency_rejects (value : Z) (s : state) :
  u32 value < 1 \/ 0x7FFFFFFF < u32 value ->
  AD5932_SetStartFrequency value s = Some (AD5932_PARAM_ERROR, s).
Proof.
  intros H. unfold AD5932_SetStartFrequency. run.
  destruct (Z.gtb_spec (u32 value) 0x7FFFFFFF), (Z.ltb_spec (u32 value) 1);
    try reflexivity; lia.
Qed.

Lemma SetDeltaFrequency_rejects
  (value : Z) (t : AD5932_SweepType_t) (s : state) :
  0x7FFFFFFF < u32 value ->
  AD5932_SetDeltaFrequency value t s = Some (AD5932_PARAM_ERROR, s).
Proof.
  intros H. unfold AD5932_SetDeltaFrequency. run.
  destruct (Z.gtb_spec (u32 value) 0x7FFFFFFF); try reflexivity; lia.
Qed.

End Setters.

(** ** The driver on a bus that is free at every poll *)

Section FreeBus.

Context {P : Platform}.
Hypothesis bus_free : forall p h, SSP_GetTransferStatus p h = SSP_STATUS_CLEAR.

Lemma SendSPICommand_free (w : Z) (s : state) :
  exists h,
    AD5932_SendSPICommand w s =
    Some (reported (SSP_Transfer (SSPPort s) h (u16 w)), push s (frame (u16 w))).
Proof. eexists. apply SendSPICommand_clear, bus_free. Qed.

Lemma SetControlRegister_free (D W M T SL SO : RegBits_t) (s : state) :
  let w := control_word_spec D W M T SL SO in
  exists h,
    AD5932_SetControlRegister D W M T SL SO s =
    Some (reported (SSP_Transfer (SSPPort s) h w), push_cmd s w (frame w)).
Proof.
  intros w. rewrite SetControlRegister_word. fold w.
  destruct (SendSPICommand_free w (with_CMD s w)) as [h Hh].
  exists h. rewrite Hh. unfold w at 2 4. rewrite control_word_spec_u16.
  reflexivity.
Qed.

Lemma SetIncrement_free (value : Z) (s : state) :
  2 <= u16 value <= 4095 ->
  let w := ControlRegs_val AD5932_NINCR + u16 value in
  exists h,
    AD5932_SetIncrement value s =
    Some (reported (SSP_Transfer (SSPPort s) h w), push_cmd s w (frame w)).
Proof.
  intros Hv w. rewrite SetIncrement_word by exact Hv. fold w.
  destruct (SendSPICommand_free w (with_CMD s w)) as [h Hh].
  exists h. rewrite Hh.
  rewrite (u16_small w) by (unfold w; cbn [ControlRegs_val]; lia).
  reflexivity.
Qed.

Lemma SetIncrementIntervall_free
  (value : Z) (b : AD5932_IncIntervall_t) (s : state) :
  2 <= u16 value <= 2047 ->
  let w := match b with
           | WAVE_OUT_BASED => ControlRegs_val AD5932_TINT_WCYCLES + u16 value
           | MCLK_INP_BASED => u16 value
           end in
  exists h,
    AD5932_SetIncrementIntervall value b s =
    Some (reported (SSP_Transfer (SSPPort s) h w), push_cmd s w (frame w)).
Proof.
  intros Hv w. rewrite SetIncrementIntervall_word by exact Hv. fold w.
  cbv zeta.
  destruct (SendSPICommand_free w (with_CMD s w)) as [h Hh].
  exists h. rewrite Hh.
  rewrite (u16_small w) by (unfold w; destruct b; cbn [ControlRegs_val]; lia).
  reflexivity.
Qed.

(** Both frequency setters send LOW then HIGH and return 0, whatever the two
    transfers reported. *)
Lemma SetStartFrequency_free (value : Z) (s : state) :
  1 <= u32 value <= 0x7FFFFFFF ->
  u64 (ad5932MCLK s) <> 0 ->
  let tmp := accu (u32 value) (ad5932MCLK s) in
  AD5932_SetStartFrequency value s =
  Some (0, push_cmd s (hi_word AD5932_FSTART_HI tmp)
             (frame (lo_word AD5932_FSTART_LO tmp)
              ++ frame (hi_word AD5932_FSTART_HI tmp))).
Proof.
  intros Hv Hm tmp. unfold AD5932_SetStartFrequency. run.
  destruct (Z.gtb_spec (u32 value) 0x7FFFFFFF), (Z.ltb_spec (u32 value) 1);
    try lia.
  cbn [orb]. unfold div_u64.
  apply Z.eqb_neq in Hm. rewrite Hm. run.
  fold (accu (u32 value) (ad5932MCLK s)). fold tmp.
  fold (lo_word AD5932_FSTART_LO tmp). fold (hi_word AD5932_FSTART_HI tmp).
  match goal with
  | |- context [AD5932_SendSPICommand ?w ?s0] =>
      destruct (SendSPICommand_free w s0) as [h1 ->]
  end.
  rewrite reported_not_busy. run.
  match goal with
  | |- context [AD5932_SendSPICommand ?w ?s0] =>
      destruct (SendSPICommand_free w s0) as [h2 ->]
  end.
  rewrite reported_not_busy. run.
  rewrite lo_word_u16, hi_word_u16, app_assoc3. reflexivity.
Qed.

Lemma SetDeltaFrequency_free
  (value : Z) (t : AD5932_SweepType_t) (s : state) :
  u32 value <= 0x7FFFFFFF ->
  u64 (ad5932MCLK s) <> 0 ->
  let tmp := accu (u32 value) (ad5932MCLK s) in
  AD5932_SetDeltaFrequency value t s =
  Some (0, push_cmd s (dfreq_hi_word tmp t)
             (frame (lo_word AD5932_DFREQ_LO tmp)
              ++ frame (dfreq_hi_word tmp t))).
Proof.
  intros Hv Hm tmp. unfold AD5932_SetDeltaFrequency. run.
  destruct (Z.gtb_spec (u32 value) 0x7FFFFFFF); try lia.
  unfold div_u64.
  apply Z.eqb_neq in Hm. rewrite Hm. run.
  fold (accu (u32 value) (ad5932MCLK s)). fold tmp.
  fold (lo_word AD5932_DFREQ_LO tmp). fold (hi_word AD5932_DFREQ_HI tmp).
  match goal with
  | |- context [AD5932_SendSPICommand ?w ?s0] =>
      destruct (SendSPICommand_free w s0) as [h1 ->]
  end.
  rewrite reported_not_busy. run.
  destruct t; cbn [SweepType_val Z.eqb Pos.eqb]; run;
    match goal with
    | |- context [AD5932_SendSPICommand ?w ?s0] =>
        destruct (SendSPICommand_free w s0) as [h2 ->]
    end;
    rewrite reported_not_busy; run.
  - change (hi_word AD5932_DFREQ_HI tmp)
      with (dfreq_hi_word tmp INCREMENTAL_SWEEP).
    rewrite lo_word_u16, dfreq_hi_word_u16, app_assoc3. reflexivity.
  - change (u16 (Z.lor (hi_word AD5932_DFREQ_HI tmp) (Z.shiftl 1 11)))
      with (dfreq_hi_word tmp DECREMENTAL_SWEEP).
    rewrite lo_word_u16, dfreq_hi_word_u16, app_assoc3. reflexivity.
Qed.

End FreeBus.

(** ** Reading words back from a history *)

Lemma transfers_app (a b : list event) :
  transfers (a ++ b) = transfers a ++ transfers b.
Proof.
  induction a as [|e a IH]; [reflexivity|].
  destruct e; cbn [app transfers]; rewrite IH; reflexivity.
Qed.

Lemma transfers_frame (w : Z) : transfers (frame w) = [w].
Proof. reflexivity. Qed.

Lemma transfers_pulse : transfers pulse = [].
Proof. reflexivity. Qed.

Lemma lor_below_4096 (a b : Z) :
  0 <= a < 4096 -> 0 <= b < 4096 -> 0 <= Z.lor a b < 4096.
Proof.
  intros Ha Hb.
  assert (Hnn : 0 <= Z.lor a b) by (apply Z.lor_nonneg; lia).
  split; [exact Hnn|].
  destruct (Z.eq_dec (Z.lor a b) 0) as [->|Hnz]; [lia|].
  change 4096 with (2 ^ 12). apply Z.log2_lt_pow2; [lia|].
  rewrite Z.log2_lor by lia.
  assert (Hla : Z.log2 a < 12).
  { destruct (Z.eq_dec a 0) as [->|]; [cbn; lia|].
    apply Z.log2_lt_pow2; change (2 ^ 12) with 4096; lia. }
  assert (Hlb : Z.log2 b < 12).
  { destruct (Z.eq_dec b 0) as [->|]; [cbn; lia|].
    apply Z.log2_lt_pow2; change (2 ^ 12) with 4096; lia. }
  lia.
Qed.

(** The decrementing HIGH word: the selector, then the payload with bit 11
    forced. *)
Lemma dfreq_hi_word_dec (tmp : Z) :
  dfreq_hi_word tmp DECREMENTAL_SWEEP =
  ControlRegs_val AD5932_DFREQ_HI + Z.lor ((tmp / 4096) mod 4096) 2048.
Proof.
  cbn [dfreq_hi_word]. rewrite hi_word_eq.
  assert (Hp : 0 <= (tmp / 4096) mod 4096 < 4096)
    by (apply Z.mod_pos_bound; lia).
  set (p := (tmp / 4096) mod 4096) in *.
  change (Z.shiftl 1 11) with 2048.
  change (ControlRegs_val AD5932_DFREQ_HI) with (3 * 4096).
  rewrite <- (lor_selector 3 p) by exact Hp.
  rewrite <- Z.lor_assoc.
  pose proof (lor_below_4096 p 2048 Hp ltac:(lia)) as Hq.
  rewrite lor_selector by exact Hq.
  apply u16_small. change (2 ^ 16) with 65536. lia.
Qed.

Lemma accu_u32 (value mclk : Z) :
  0 <= value <= 0x7FFFFFFF -> 0 < mclk < 2 ^ 32 ->
  accu value mclk = u32 (value * 2 ^ 24 / mclk).
Proof.
  intros Hv Hm. unfold accu, AD5932_ACCU_RESOLUTION.
  change 0x1000000 with (2 ^ 24).
  rewrite (u64_small value) by lia.
  rewrite (u64_small mclk) by lia.
  rewrite (u64_small (value * 2 ^ 24)) by lia.
  reflexivity.
Qed.

(** Bit 11 of the HIGH payload is bit 23 of [tmp]. *)
Lemma hi_payload_bit11 (tmp : Z) :
  Z.testbit ((tmp / 4096) mod 4096) 11 = Z.testbit tmp 23.
Proof.
  change 4096 with (2 ^ 12).
  rewrite Z.mod_pow2_bits_low by lia.
  rewrite Z.div_pow2_bits by lia. reflexivity.
Qed.

(** ** The protocol driver *)

(** C8.  A transmission attempted while the bus is not free returns the busy
    code at once: the status poll is the only thing that happened, FSYNC was
    not driven and no transfer was issued.  On a free bus FSYNC is driven low,
    the word (cut to 16 bits) is transferred, FSYNC is driven high, whether
    the transfer succeeded or not, and the call returns 0 for a positive
    transfer result and the result itself otherwise. *)
Theorem send_command_framing {P : Platform} (w : Z) (s : state) :
  (SSP_GetTransferStatus (SSPPort s) (history s) <> SSP_STATUS_CLEAR ->
   AD5932_SendSPICommand w s = Some (AD5932_PORT_BUSY, push s [EvStatus]))
  /\
  (SSP_GetTransferStatus (SSPPort s) (history s) = SSP_STATUS_CLEAR ->
   AD5932_SendSPICommand w s =
   Some (Z.min 0 (SSP_Transfer (SSPPort s)
                    (history s ++ [EvStatus; EvPin SPARE0 false]) (u16 w)),
         push s [EvStatus; EvPin SPARE0 false; EvTransfer (u16 w);
                 EvPin SPARE0 true])).
Proof.
  split; intros H.
  - now apply SendSPICommand_busy.
  - now apply SendSPICommand_clear.
Qed.

(** ** The command encoder *)

(** C6.  For every six flags the control-register setter builds one word
    that depends on the flags only; it has selector 0000 and carries the
    protocol's payload: bits 0, 1, 4, 6, 7 and 11 set, bit 2 sync-out enable,
    bit 3 sync-select, bit 5 trigger type, bit 8 MSB-out enable, bit 9
    waveform shape, bit 10 DAC enable.  The setter always returns and leaves
    that word in [ad5932CMD]; when the bus is free it sends exactly that one
    word, and when the bus is busy it sends nothing. *)
Theorem control_register_word_layout {P : Platform}
  (DAC_STATE WAVE_TYPE MBSOUT_STATE TRIGGER_TYPE SYNCSEL_STATE SYNCOUT_STATE : RegBits_t)
  (s : state) :
  let w := control_word_spec DAC_STATE WAVE_TYPE MBSOUT_STATE TRIGGER_TYPE
                             SYNCSEL_STATE SYNCOUT_STATE in
  (exists r s',
      AD5932_SetControlRegister DAC_STATE WAVE_TYPE MBSOUT_STATE TRIGGER_TYPE
                                SYNCSEL_STATE SYNCOUT_STATE s = Some (r, s') /\
      ad5932CMD s' = w /\
      (SSP_GetTransferStatus (SSPPort s) (history s) = SSP_STATUS_CLEAR ->
       history s' = history s ++ frame w /\
       transfers (history s') = transfers (history s) ++ [w]) /\
      (SSP_GetTransferStatus (SSPPort s) (history s) <> SSP_STATUS_CLEAR ->
       r = AD5932_PORT_BUSY /\
       transfers (history s') = transfers (history s))) /\
  0 <= w < 2 ^ 16 /\
  selector w = 0 /\
  Z.testbit (payload w) 0 = true /\
  Z.testbit (payload w) 1 = true /\
  Z.testbit (payload w) 2 = RegBits_set SYNCOUT_STATE /\
  Z.testbit (payload w) 3 = RegBits_set SYNCSEL_STATE /\
  Z.testbit (payload w) 4 = true /\
  Z.testbit (payload w) 5 = RegBits_set TRIGGER_TYPE /\
  Z.testbit (payload w) 6 = true /\
  Z.testbit (payload w) 7 = true /\
  Z.testbit (payload w) 8 = RegBits_set MBSOUT_STATE /\
  Z.testbit (payload w) 9 = RegBits_set WAVE_TYPE /\
  Z.testbit (payload w) 10 = RegBits_set DAC_STATE /\
  Z.testbit (payload w) 11 = true.
Proof.
  intros w. split.
  - rewrite SetControlRegister_word. fold w.
    destruct (Z.eq_dec (SSP_GetTransferStatus (SSPPort s) (history s))
                       SSP_STATUS_CLEAR) as [Hc|Hb].
    + rewrite SendSPICommand_clear by exact Hc.
      replace (u16 w) with w by (symmetry; apply control_word_spec_u16).
      do 2 eexists. split; [reflexivity|]. run.
      split; [reflexivity|]. split; [|intros Hb; contradiction].
      intros _. split; [reflexivity|].
      rewrite transfers_app. reflexivity.
    + rewrite SendSPICommand_busy by exact Hb.
      do 2 eexists. split; [reflexivity|]. run.
      split; [reflexivity|]. split; [intros Hc; contradiction|].
      intros _. split; [reflexivity|].
      rewrite transfers_app. cbn [transfers]. apply app_nil_r.
  - unfold w, control_word_spec, RegBits_set.
    destruct (RegBits_val_01 DAC_STATE) as [-> | ->],
      (RegBits_val_01 WAVE_TYPE) as [-> | ->],
      (RegBits_val_01 MBSOUT_STATE) as [-> | ->],
      (RegBits_val_01 TRIGGER_TYPE) as [-> | ->],
      (RegBits_val_01 SYNCSEL_STATE) as [-> | ->],
      (RegBits_val_01 SYNCOUT_STATE) as [-> | ->];
      vm_compute; intuition congruence.
Qed.

(** ** Frequency programming on a free bus *)

Section FrequencyProgramming.

Context {P : Platform}.
Hypothesis bus_free : forall p h, SSP_GetTransferStatus p h = SSP_STATUS_CLEAR.

Lemma mclk_nonzero (s : state) :
  0 < ad5932MCLK s < 2 ^ 32 -> u64 (ad5932MCLK s) <> 0.
Proof. intros H. rewrite u64_small; lia. Qed.

(** C1, amended.  For a master clock 0 < mclk < 2^32 and a frequency
    0 < f < mclk, f <= 2^31-1, on a free bus: programming the start frequency
    sends exactly two words whose payloads give
    high*4096 + low = floor(f * 2^24 / mclk) < 2^24; programming the delta
    frequency with an incrementing sweep does the same; with a decrementing
    sweep the low payload is the low 12 bits of that quotient and the high
    payload is its upper 12 bits with bit 11 forced to 1. *)
Theorem frequency_words_rebuild_accumulator (s : state) (f : Z) :
  0 < f < ad5932MCLK s -> f <= 0x7FFFFFFF -> ad5932MCLK s < 2 ^ 32 ->
  let acc := f * 2 ^ 24 / ad5932MCLK s in
  (exists s',
      AD5932_SetStartFrequency f s = Some (0, s') /\
      carries_accumulator s s' f) /\
  (exists s',
      AD5932_SetDeltaFrequency f INCREMENTAL_SWEEP s = Some (0, s') /\
      carries_accumulator s s' f) /\
  (exists s' lo hi,
      AD5932_SetDeltaFrequency f DECREMENTAL_SWEEP s = Some (0, s') /\
      transfers (history s') = transfers (history s) ++ [lo; hi] /\
      payload lo = acc mod 4096 /\
      payload hi = Z.lor (acc / 4096) 2048).
Proof.
  intros Hf Hmax Hm acc.
  assert (Hu : u32 f = f) by (apply u32_small; lia).
  assert (Hnz : u64 (ad5932MCLK s) <> 0) by (apply mclk_nonzero; lia).
  assert (Hacc : accu f (ad5932MCLK s) = acc)
    by (apply accu_exact; lia).
  assert (Hlt : acc < 2 ^ 24) by (apply accu_below_24; lia).
  assert (Hnn : 0 <= acc) by (apply Z.div_pos; lia).
  assert (Hrebuild : forall lo hi,
             payload (hi_word hi acc) * 4096 + payload (lo_word lo acc) = acc).
  { intros lo hi. rewrite payloads_rebuild. apply Z.mod_small. lia. }
  repeat split.
  - eexists. split.
    + rewrite SetStartFrequency_free by (rewrite ?Hu; lia || assumption).
      rewrite Hu, Hacc. reflexivity.
    + exists (lo_word AD5932_FSTART_LO acc), (hi_word AD5932_FSTART_HI acc).
      run. rewrite !transfers_app, !transfers_frame, Hrebuild.
      repeat split; (reflexivity || assumption).
  - eexists. split.
    + rewrite SetDeltaFrequency_free by (rewrite ?Hu; lia || assumption).
      rewrite Hu, Hacc. reflexivity.
    + exists (lo_word AD5932_DFREQ_LO acc), (hi_word AD5932_DFREQ_HI acc).
      run. rewrite !transfers_app, !transfers_frame.
      cbn [dfreq_hi_word]. rewrite Hrebuild.
      repeat split; (reflexivity || assumption).
  - exists (push_cmd s (dfreq_hi_word acc DECREMENTAL_SWEEP)
              (frame (lo_word AD5932_DFREQ_LO acc)
               ++ frame (dfreq_hi_word acc DECREMENTAL_SWEEP))),
      (lo_word AD5932_DFREQ_LO acc), (dfreq_hi_word acc DECREMENTAL_SWEEP).
    split; [|split; [|split]].
    + rewrite SetDeltaFrequency_free by (rewrite ?Hu; lia || assumption).
      rewrite Hu, Hacc. reflexivity.
    + run. rewrite !transfers_app, !transfers_frame. reflexivity.
    + rewrite lo_word_eq.
      apply payload_reg_word. apply Z.mod_pos_bound. lia.
    + rewrite dfreq_hi_word_dec.
      assert (Hhi : 0 <= acc / 4096 < 4096).
      { split; [apply Z.div_pos; lia|].
        apply Z.div_lt_upper_bound; [lia|]. change (2 ^ 24) with 16777216 in Hlt. lia. }
      rewrite (Z.mod_small (acc / 4096)) by exact Hhi.
      apply payload_reg_word. apply lor_below_4096; lia.
Qed.

(** Where bit 11 of the delta-frequency HIGH payload comes from, on a free
    bus with 0 <= f <= 2^31-1 and 0 < mclk < 2^32: the setter ORs it in for a
    decrementing sweep; for an incrementing sweep the setter leaves there
    whatever bit 23 of the quotient floor(f * 2^24 / mclk) mod 2^32 is, which
    is 0 as long as 2*f < mclk. *)
Lemma delta_high_word_bit11
  (s : state) (f : Z) (SweepType : AD5932_SweepType_t) :
  0 <= f <= 0x7FFFFFFF -> 0 < ad5932MCLK s < 2 ^ 32 ->
  exists s' lo hi,
    AD5932_SetDeltaFrequency f SweepType s = Some (0, s') /\
    transfers (history s') = transfers (history s) ++ [lo; hi] /\
    selector hi = 3 /\
    Z.testbit (payload hi) 11 =
      match SweepType with
      | DECREMENTAL_SWEEP => true
      | INCREMENTAL_SWEEP =>
          Z.testbit (u32 (f * 2 ^ 24 / ad5932MCLK s)) 23
      end /\
    (SweepType = INCREMENTAL_SWEEP -> 2 * f < ad5932MCLK s ->
     Z.testbit (payload hi) 11 = false).
Proof.
  intros Hf Hm.
  assert (Hu : u32 f = f) by (apply u32_small; lia).
  assert (Hnz : u64 (ad5932MCLK s) <> 0) by (apply mclk_nonzero; lia).
  pose proof (accu_u32 f (ad5932MCLK s) Hf Hm) as Hacc.
  set (tmp := u32 (f * 2 ^ 24 / ad5932MCLK s)) in *.
  exists (push_cmd s (dfreq_hi_word tmp SweepType)
            (frame (lo_word AD5932_DFREQ_LO tmp)
             ++ frame (dfreq_hi_word tmp SweepType))),
    (lo_word AD5932_DFREQ_LO tmp), (dfreq_hi_word tmp SweepType).
  assert (Hp : 0 <= (tmp / 4096) mod 4096 < 4096)
    by (apply Z.mod_pos_bound; lia).
  split; [|split; [|split; [|split]]].
  - rewrite SetDeltaFrequency_free by (rewrite ?Hu; lia || assumption).
    rewrite Hu, Hacc. reflexivity.
  - run. rewrite !transfers_app, !transfers_frame. reflexivity.
  - destruct SweepType.
    + cbn [dfreq_hi_word]. rewrite hi_word_eq.
      rewrite selector_reg_word by exact Hp. reflexivity.
    + rewrite dfreq_hi_word_dec.
      rewrite selector_reg_word by (apply lor_below_4096; lia). reflexivity.
  - destruct SweepType.
    + cbn [dfreq_hi_word]. rewrite hi_word_eq.
      rewrite payload_reg_word by exact Hp. apply hi_payload_bit11.
    + rewrite dfreq_hi_word_dec.
      rewrite payload_reg_word by (apply lor_below_4096; lia).
      rewrite Z.lor_spec. apply orb_true_r.
  - intros -> Hhalf. cbn [dfreq_hi_word]. rewrite hi_word_eq.
    rewrite payload_reg_word by exact Hp. rewrite hi_payload_bit11.
    apply (small_bits_above tmp 23); [|lia].
    unfold tmp. rewrite u32_small.
    + split; [apply Z.div_pos; lia|].
      apply Z.div_lt_upper_bound; lia.
    + split; [apply Z.div_pos; lia|].
      apply Z.div_lt_upper_bound; lia.
Qed.

(** C10.  The start-frequency setter rejects 0 with the parameter error and
    does nothing else; the delta-frequency setter accepts 0 and, on a free bus
    with a master clock 0 < mclk < 2^32, sends the two delta-frequency words
    with an all-zero accumulator: 0x2000, then 0x3000 (incrementing) or
    0x3800 (decrementing, bit 11 being the direction). *)
Theorem zero_frequency_start_rejected_delta_accepted
  (s : state) (SweepType : AD5932_SweepType_t) :
  AD5932_SetStartFrequency 0 s = Some (AD5932_PARAM_ERROR, s) /\
  (0 < ad5932MCLK s < 2 ^ 32 ->
   let hi := match SweepType with
             | INCREMENTAL_SWEEP => 0x3000
             | DECREMENTAL_SWEEP => 0x3800
             end in
   AD5932_SetDeltaFrequency 0 SweepType s =
     Some (0, push_cmd s hi (frame 0x2000 ++ frame hi)) /\
   transfers (frame 0x2000 ++ frame hi) = [0x2000; hi] /\
   payload 0x2000 = 0 /\
   Z.land (payload hi) 0x7FF = 0).
Proof.
  split.
  - apply SetStartFrequency_rejects. left. reflexivity.
  - intros Hm hi.
    assert (Hnz : u64 (ad5932MCLK s) <> 0) by (apply mclk_nonzero; lia).
    assert (Hacc : accu (u32 0) (ad5932MCLK s) = 0).
    { change (u32 0) with 0. rewrite accu_exact by lia. reflexivity. }
    split; [|destruct SweepType; repeat split].
    rewrite SetDeltaFrequency_free by (change (u32 0) with 0; lia || assumption).
    rewrite Hacc. destruct SweepType; reflexivity.
Qed.

End FrequencyProgramming.

(** ** The sequencer on a free bus whose transfers report no error *)

Section Sequencer.

Context {P : Platform}.
Hypothesis bus_free : forall p h, SSP_GetTransferStatus p h = SSP_STATUS_CLEAR.
Hypothesis bus_ok : forall p h w, 0 <= SSP_Transfer p h w.

Ltac pass := rewrite reported_ok by apply bus_ok; rewrite ?Z.ltb_irrefl; run.

Ltac step :=
  run;
  match goal with
  | |- context [AD5932_SetControlRegister ?a ?b ?c ?d ?e ?f ?s0] =>
      let h := fresh "h" in
      destruct (SetControlRegister_free bus_free a b c d e f s0) as [h ->];
      pass
  | |- context [AD5932_SetStartFrequency ?v ?s0] =>
      rewrite (SetStartFrequency_free bus_free v s0)
        by (run; rewrite ?u32_idem, ?u32_small by lia; first [lia | apply mclk_nonzero; lia]);
      rewrite ?Z.ltb_irrefl; run
  | |- context [AD5932_SetDeltaFrequency ?v ?t ?s0] =>
      rewrite (SetDeltaFrequency_free bus_free v t s0)
        by (run; rewrite ?u32_idem, ?u32_small by lia; first [lia | apply mclk_nonzero; lia]);
      rewrite ?Z.ltb_irrefl; run
  | |- context [AD5932_SetIncrementIntervall ?v ?b ?s0] =>
      let h := fresh "h" in
      destruct (SetIncrementIntervall_free bus_free v b s0) as [h ->];
      [rewrite ?u16_small by (rewrite ?u32_small by lia; lia);
       rewrite ?u32_small by lia; lia
      | pass]
  | |- context [AD5932_SetIncrement ?v ?s0] =>
      let h := fresh "h" in
      destruct (SetIncrement_free bus_free v s0) as [h ->];
      [rewrite ?u16_small by (rewrite ?u32_small by lia; lia);
       rewrite ?u32_small by lia; lia
      | pass]
  end.

Lemma later_refl (s : state) : later s s.
Proof. repeat split. exists []. now rewrite app_nil_r. Qed.

Lemma later_trans (a b c : state) : later a b -> later b c -> later a c.
Proof.
  intros (Hp1 & Hm1 & e1 & H1) (Hp2 & Hm2 & e2 & H2).
  repeat split; try congruence.
  exists (e1 ++ e2). rewrite H2, H1. apply app_assoc3.
Qed.

Lemma later_push_cmd (s : state) (w : Z) (evs : list event) :
  later s (push_cmd s w evs).
Proof. repeat split. now exists evs. Qed.

Lemma later_push (s : state) (evs : list event) : later s (push s evs).
Proof. repeat split. now exists evs. Qed.

(** On such a bus every setter returns, and never a negative value: it either
    rejects its parameter and does nothing, or sends its words. *)

Lemma SetControlRegister_total (D W M T SL SO : RegBits_t) (s : state) :
  let w := control_word_spec D W M T SL SO in
  AD5932_SetControlRegister D W M T SL SO s = Some (0, push_cmd s w (frame w)).
Proof.
  intros w. destruct (SetControlRegister_free bus_free D W M T SL SO s) as [h ->].
  rewrite reported_ok by apply bus_ok. reflexivity.
Qed.

Lemma SetStartFrequency_total (value : Z) (s : state) :
  u64 (ad5932MCLK s) <> 0 ->
  exists r s',
    AD5932_SetStartFrequency value s = Some (r, s') /\ 0 <= r /\ later s s'.
Proof.
  intros Hm.
  destruct (Z_le_dec 1 (u32 value)); [destruct (Z_le_dec (u32 value) 0x7FFFFFFF)|].
  - rewrite (SetStartFrequency_free bus_free) by (lia || assumption).
    do 2 eexists. split; [reflexivity|]. split; [lia|apply later_push_cmd].
  - rewrite SetStartFrequency_rejects by lia.
    do 2 eexists. split; [reflexivity|]. split; [|apply later_refl].
    unfold AD5932_PARAM_ERROR. lia.
  - rewrite SetStartFrequency_rejects by lia.
    do 2 eexists. split; [reflexivity|]. split; [|apply later_refl].
    unfold AD5932_PARAM_ERROR. lia.
Qed.

Lemma SetDeltaFrequency_total
  (value : Z) (t : AD5932_SweepType_t) (s : state) :
  u64 (ad5932MCLK s) <> 0 ->
  exists r s',
    AD5932_SetDeltaFrequency value t s = Some (r, s') /\ 0 <= r /\ later s s'.
Proof.
  intros Hm.
  destruct (Z_le_dec (u32 value) 0x7FFFFFFF).
  - rewrite (SetDeltaFrequency_free bus_free) by (lia || assumption).
    do 2 eexists. split; [reflexivity|]. split; [lia|apply later_push_cmd].
  - rewrite SetDeltaFrequency_rejects by lia.
    do 2 eexists. split; [reflexivity|]. split; [|apply later_refl].
    unfold AD5932_PARAM_ERROR. lia.
Qed.

Lemma SetIncrementIntervall_total
  (value : Z) (b : AD5932_IncIntervall_t) (s : state) :
  exists r s',
    AD5932_SetIncrementIntervall value b s = Some (r, s') /\ 0 <= r /\ later s s'.
Proof.
  destruct (Z_le_dec 2 (u16 value)); [destruct (Z_le_dec (u16 value) 2047)|].
  - destruct (SetIncrementIntervall_free bus_free value b s) as [h ->]; [lia|].
    rewrite reported_ok by apply bus_ok.
    do 2 eexists. split; [reflexivity|]. split; [lia|apply later_push_cmd].
  - rewrite SetIncrementIntervall_rejects by lia.
    do 2 eexists. split; [reflexivity|]. split; [|apply later_refl].
    unfold AD5932_PARAM_ERROR. lia.
  - rewrite SetIncrementIntervall_rejects by lia.
    do 2 eexists. split; [reflexivity|]. split; [|apply later_refl].
    unfold AD5932_PARAM_ERROR. lia.
Qed.

Lemma SetIncrement_total (value : Z) (s : state) :
  exists r s',
    AD5932_SetIncrement value s = Some (r, s') /\ 0 <= r /\ later s s'.
Proof.
  destruct (Z_le_dec 2 (u16 value)); [destruct (Z_le_dec (u16 value) 4095)|].
  - destruct (SetIncrement_free bus_free value s) as [h ->]; [lia|].
    rewrite reported_ok by apply bus_ok.
    do 2 eexists. split; [reflexivity|]. split; [lia|apply later_push_cmd].
  - rewrite SetIncrement_rejects by lia.
    do 2 eexists. split; [reflexivity|]. split; [|apply later_refl].
    unfold AD5932_PARAM_ERROR. lia.
  - rewrite SetIncrement_rejects by lia.
    do 2 eexists. split; [reflexivity|]. split; [|apply later_refl].
    unfold AD5932_PARAM_ERROR. lia.
Qed.

Lemma not_negative (r : Z) : 0 <= r -> (r <? 0) = false.
Proof. intros H. apply Z.ltb_ge. exact H. Qed.

(** Whatever the parameters, the sweep has sent the control word before it
    looks at any of them, and it returns. *)
Lemma SweepGenerator_control_word_first
  (s : state) (startFreq deltaFrerq increment incIntervall : Z)
  (INCRTYPE : AD5932_IncIntervall_t)
  (SWEEPTYPE WAVE_TYPE MSBOUT TRIGGER SYNCSEL SYNCOUT : RegBits_t) :
  u64 (ad5932MCLK s) <> 0 ->
  let cw := control_word_spec DAC_EN WAVE_TYPE MSBOUT TRIGGER SYNCSEL SYNCOUT in
  exists r s',
    AD5932_SweepGenerator startFreq deltaFrerq increment INCRTYPE incIntervall
      SWEEPTYPE WAVE_TYPE MSBOUT TRIGGER SYNCSEL SYNCOUT s = Some (r, s') /\
    later (push_cmd s cw ([EvPin SPARE2 false] ++ frame cw)) s'.
Proof.
  intros Hm cw.
  set (s0 := push_cmd s cw ([EvPin SPARE2 false] ++ frame cw)).
  unfold AD5932_SweepGenerator. run.
  rewrite SetControlRegister_total. rewrite Z.ltb_irrefl. fold cw. run.
  match goal with
  | |- context [AD5932_SetStartFrequency ?v ?sx] =>
      replace sx with s0 by (unfold s0; run; rewrite app_assoc3; reflexivity);
      destruct (SetStartFrequency_total v s0 Hm) as (r1 & s1 & -> & Hr1 & L1)
  end.
  rewrite (not_negative r1 Hr1).
  assert (Hm1 : u64 (ad5932MCLK s1) <> 0)
    by (destruct L1 as (_ & -> & _); exact Hm).
  match goal with
  | |- context [AD5932_SetDeltaFrequency ?v ?t ?sx] =>
      destruct (SetDeltaFrequency_total v t sx Hm1) as (r2 & s2 & -> & Hr2 & L2)
  end.
  rewrite (not_negative r2 Hr2).
  match goal with
  | |- context [AD5932_SetIncrementIntervall ?v ?b ?sx] =>
      destruct (SetIncrementIntervall_total v b sx) as (r3 & s3 & -> & Hr3 & L3)
  end.
  rewrite (not_negative r3 Hr3).
  match goal with
  | |- context [AD5932_SetIncrement ?v ?sx] =>
      destruct (SetIncrement_total v sx) as (r4 & s4 & -> & Hr4 & L4)
  end.
  rewrite (not_negative r4 Hr4).
  assert (L : later s0 s4).
  { eapply later_trans; [exact L1|]. eapply later_trans; [exact L2|].
    eapply later_trans; [exact L3|exact L4]. }
  destruct (RegBits_val TRIGGER =? RegBits_val AUTOMATIC_TRIGGER); run.
  - do 2 eexists. split; [reflexivity|].
    eapply later_trans; [exact L|].
    rewrite !app_assoc3. cbn [app].
    apply (later_push s4 [EvPin SPARE2 true; EvDelay 100; EvPin SPARE2 false]).
  - do 2 eexists. split; [reflexivity|]. exact L.
Qed.

(** With every parameter in range the sweep sends its seven words in the
    fixed order, pulses CTRL when the trigger is automatic, and returns 0. *)
Lemma SweepGenerator_success
  (s : state) (startFreq deltaFrerq increment incIntervall : Z)
  (SWEEPTYPE WAVE_TYPE MSBOUT TRIGGER SYNCSEL SYNCOUT : RegBits_t) :
  0 < ad5932MCLK s < 2 ^ 32 ->
  1 <= startFreq <= 0x7FFFFFFF -> 0 <= deltaFrerq <= 0x7FFFFFFF ->
  2 <= incIntervall <= 2047 -> 2 <= increment <= 4095 ->
  let mclk := ad5932MCLK s in
  AD5932_SweepGenerator startFreq deltaFrerq increment WAVE_OUT_BASED
    incIntervall SWEEPTYPE WAVE_TYPE MSBOUT TRIGGER SYNCSEL SYNCOUT s =
  Some (0, push_cmd s (0x1000 + increment)
             ([EvPin SPARE2 false]
              ++ frame (control_word_spec DAC_EN WAVE_TYPE MSBOUT TRIGGER
                                          SYNCSEL SYNCOUT)
              ++ frame (lo_word AD5932_FSTART_LO (accu startFreq mclk))
              ++ frame (hi_word AD5932_FSTART_HI (accu startFreq mclk))
              ++ frame (lo_word AD5932_DFREQ_LO (accu deltaFrerq mclk))
              ++ frame (dfreq_hi_word (accu deltaFrerq mclk)
                                      (SweepType_of_RegBits SWEEPTYPE))
              ++ frame (0x4000 + incIntervall)
              ++ frame (0x1000 + increment)
              ++ (if RegBits_val TRIGGER =? RegBits_val AUTOMATIC_TRIGGER
                  then pulse else []))).
Proof.
  intros Hm Hs Hd Hi Hn mclk. unfold AD5932_SweepGenerator.
  do 5 step.
  rewrite !u32_idem.
  rewrite !(u32_small startFreq), !(u32_small deltaFrerq) by lia.
  rewrite !(u32_small incIntervall), !(u32_small increment) by lia.
  rewrite !(u16_small incIntervall), !(u16_small increment) by lia.
  cbn [ControlRegs_val]. fold mclk.
  destruct (RegBits_val TRIGGER =? RegBits_val AUTOMATIC_TRIGGER); run;
    rewrite !app_assoc3; cbn [app]; reflexivity.
Qed.

(** C3, amended.  The sweep does not validate its parameters up front; each
    setter validates its own parameter when its step is reached.  A setter
    given a value outside its range (start frequency 0 or above 2^31-1, delta
    frequency above 2^31-1, increment interval outside [2,2047], increment
    count outside [2,4095], each as the 32- or 16-bit value the setter
    receives) returns the parameter error and issues no bus write.  But on a
    free bus whose transfers report no error, with a master clock
    0 < mclk < 2^32, the sweep has always sent the control word first,
    whatever the parameters; and a sweep whose only out-of-range parameter is
    an increment count below 2 or in 4096..65535 has sent six words before
    that count is rejected. *)
Theorem sweep_validates_step_by_step
  (s : state) (startFreq deltaFrerq increment incIntervall : Z)
  (INCRTYPE : AD5932_IncIntervall_t)
  (SWEEPTYPE WAVE_TYPE MSBOUT TRIGGER SYNCSEL SYNCOUT : RegBits_t) :
  let cw := control_word_spec DAC_EN WAVE_TYPE MSBOUT TRIGGER SYNCSEL SYNCOUT in
  let mclk := ad5932MCLK s in
  (u32 startFreq < 1 \/ 0x7FFFFFFF < u32 startFreq ->
   AD5932_SetStartFrequency startFreq s = Some (AD5932_PARAM_ERROR, s)) /\
  (0x7FFFFFFF < u32 deltaFrerq ->
   AD5932_SetDeltaFrequency deltaFrerq (SweepType_of_RegBits SWEEPTYPE) s =
   Some (AD5932_PARAM_ERROR, s)) /\
  (u16 incIntervall < 2 \/ 2047 < u16 incIntervall ->
   AD5932_SetIncrementIntervall incIntervall INCRTYPE s =
   Some (AD5932_PARAM_ERROR, s)) /\
  (u16 increment < 2 \/ 4095 < u16 increment ->
   AD5932_SetIncrement increment s = Some (AD5932_PARAM_ERROR, s)) /\
  (0 < mclk < 2 ^ 32 ->
   exists r s' rest,
     AD5932_SweepGenerator startFreq deltaFrerq increment INCRTYPE incIntervall
       SWEEPTYPE WAVE_TYPE MSBOUT TRIGGER SYNCSEL SYNCOUT s = Some (r, s') /\
     transfers (history s') = transfers (history s) ++ cw :: rest) /\
  (0 < mclk < 2 ^ 32 ->
   1 <= startFreq <= 0x7FFFFFFF -> 0 <= deltaFrerq <= 0x7FFFFFFF ->
   2 <= incIntervall <= 2047 ->
   0 <= increment < 2 \/ 4095 < increment < 2 ^ 16 ->
   exists r s' iw,
     AD5932_SweepGenerator startFreq deltaFrerq increment INCRTYPE incIntervall
       SWEEPTYPE WAVE_TYPE MSBOUT TRIGGER SYNCSEL SYNCOUT s = Some (r, s') /\
     transfers (history s') =
     transfers (history s)
     ++ [cw;
         lo_word AD5932_FSTART_LO (accu startFreq mclk);
         hi_word AD5932_FSTART_HI (accu startFreq mclk);
         lo_word AD5932_DFREQ_LO (accu deltaFrerq mclk);
         dfreq_hi_word (accu deltaFrerq mclk) (SweepType_of_RegBits SWEEPTYPE);
         iw]).
Proof.
  intros cw mclk.
  split; [apply SetStartFrequency_rejects|].
  split; [apply SetDeltaFrequency_rejects|].
  split; [apply SetIncrementIntervall_rejects|].
  split; [apply SetIncrement_rejects|].
  split.
  - intros Hm.
    destruct (SweepGenerator_control_word_first s startFreq deltaFrerq
                increment incIntervall INCRTYPE SWEEPTYPE WAVE_TYPE MSBOUT
                TRIGGER SYNCSEL SYNCOUT (mclk_nonzero s Hm))
      as (r & s' & Hrun & _ & _ & evs & Hh).
    exists r, s', (transfers evs). split; [exact Hrun|].
    rewrite Hh. run. fold cw.
    rewrite !transfers_app, transfers_frame. cbn [transfers app].
    rewrite <- app_assoc. reflexivity.
  - intros Hm Hs Hd Hi Hn. unfold AD5932_SweepGenerator.
    do 4 step.
    rewrite SetIncrement_rejects
      by (rewrite u32_small, u16_small by lia; lia).
    change (AD5932_PARAM_ERROR <? 0) with false.
    rewrite !u32_idem.
    rewrite !(u32_small startFreq), !(u32_small deltaFrerq) by lia.
    fold mclk. fold cw.
    destruct (RegBits_val TRIGGER =? RegBits_val AUTOMATIC_TRIGGER); run;
      (do 3 eexists; split; [reflexivity|]; run;
       rewrite !transfers_app, !transfers_frame; cbn [transfers app];
       rewrite <- ?app_assoc; cbn [app]; rewrite ?app_nil_r; reflexivity).
Qed.

(** C9, amended.  Single-frequency output (1000 Hz, sine, MSB-out enabled,
    automatic trigger) with mclk = 50,000,000, on a free bus whose transfers
    report no error: CTRL is driven low; the control word 0x0FFF goes out
    (sine=1, msb=1, dac=1, and trigger-type bit 5 = 1, because this operation
    always programs EXTERNAL_TRIGGER into the control register); then the two
    start-frequency words for acc = 335 = 0x14F, low word 0xC000|0x14F and
    high word 0xD000|0x000; then the trigger pulse (CTRL high, 100 us, CTRL
    low); the operation returns 0. *)
Theorem single_frequency_scenario (s : state) :
  ad5932MCLK s = 50000000 ->
  AD5932_SingleFrequencyGenerator 1000 SINE_OUT MSBOUT_EN AUTOMATIC_TRIGGER s =
    Some (0, push_cmd s 0xD000
               ([EvPin SPARE2 false]
                ++ frame 0x0FFF
                ++ frame (Z.lor 0xC000 0x14F)
                ++ frame (Z.lor 0xD000 0x000)
                ++ [EvPin SPARE2 true; EvDelay 100; EvPin SPARE2 false])) /\
  1000 * 16777216 / 50000000 = 0x14F /\
  Z.testbit 0x0FFF 9 = true /\
  Z.testbit 0x0FFF 8 = true /\
  Z.testbit 0x0FFF 10 = true /\
  Z.testbit 0x0FFF 5 = true.
Proof.
  intros Hm. split; [|repeat split].
  unfold AD5932_SingleFrequencyGenerator.
  step.
  rewrite (SetStartFrequency_free bus_free) by (run; rewrite ?Hm; vm_compute; intuition congruence).
  rewrite ?Z.ltb_irrefl. run. rewrite Hm.
  cbn [RegBits_val Z.eqb]. run.
  rewrite !app_assoc3. reflexivity.
Qed.

End Sequencer.

(** ** What the operations can return, on any bus *)

Section Outcomes.

Context {P : Platform}.

Lemma SendSPICommand_outcome (w : Z) (s : state) :
  exists r evs,
    AD5932_SendSPICommand w s = Some (r, push s evs) /\
    (r = AD5932_PORT_BUSY \/ r <= 0).
Proof.
  destruct (Z.eq_dec (SSP_GetTransferStatus (SSPPort s) (history s))
                     SSP_STATUS_CLEAR) as [Hc|Hb].
  - rewrite SendSPICommand_clear by exact Hc.
    do 2 eexists. split; [reflexivity|]. right. unfold reported. lia.
  - rewrite SendSPICommand_busy by exact Hb.
    do 2 eexists. split; [reflexivity|]. now left.
Qed.

Ltac send :=
  match goal with
  | H : context [AD5932_SendSPICommand ?w ?s0] |- _ =>
      let r := fresh "r" in
      let evs := fresh "evs" in
      let E := fresh "E" in
      let Hr := fresh "Hr" in
      destruct (SendSPICommand_outcome w s0) as (r & evs & E & Hr);
      rewrite E in H; clear E;
      cbv beta iota in H
  end.

Ltac returned H :=
  inversion H; subst; auto.

(** The frequency setters return 0, busy or parameter error, and nothing
    else: a negative transfer result never reaches their caller. *)
Lemma SetStartFrequency_result (value : Z) (s s' : state) (r : Z) :
  AD5932_SetStartFrequency value s = Some (r, s') ->
  r = 0 \/ r = AD5932_PORT_BUSY \/ r = AD5932_PARAM_ERROR.
Proof.
  unfold AD5932_SetStartFrequency, div_u64. run.
  destruct ((u32 value >? 0x7FFFFFFF) || (u32 value <? 1)).
  { intros H. returned H. }
  destruct (u64 (ad5932MCLK s) =? 0); run; [discriminate|].
  intros H. send.
  destruct (Z.eqb_spec r0 AD5932_PORT_BUSY) as [-> | Hn1].
  { returned H. }
  revert H. run. intros H. send.
  destruct (Z.eqb_spec r1 AD5932_PORT_BUSY) as [-> | Hn2]; returned H.
Qed.

Lemma SetDeltaFrequency_result
  (value : Z) (t : AD5932_SweepType_t) (s s' : state) (r : Z) :
  AD5932_SetDeltaFrequency value t s = Some (r, s') ->
  r = 0 \/ r = AD5932_PORT_BUSY \/ r = AD5932_PARAM_ERROR.
Proof.
  unfold AD5932_SetDeltaFrequency, div_u64. run.
  destruct (u32 value >? 0x7FFFFFFF).
  { intros H. returned H. }
  destruct (u64 (ad5932MCLK s) =? 0); run; [discriminate|].
  intros H. send.
  destruct (Z.eqb_spec r0 AD5932_PORT_BUSY) as [-> | Hn1].
  { returned H. }
  revert H.
  destruct (SweepType_val t =? SweepType_val DECREMENTAL_SWEEP); run;
    intros H; send;
    destruct (Z.eqb_spec r1 AD5932_PORT_BUSY) as [-> | Hn2]; returned H.
Qed.

Lemma frequency_result_not_negative (r : Z) :
  r = 0 \/ r = AD5932_PORT_BUSY \/ r = AD5932_PARAM_ERROR -> (r <? 0) = false.
Proof. intros [-> | [-> | ->]]; reflexivity. Qed.

(** So the sweep can stop at its first, fourth or fifth step only. *)
Lemma SweepGenerator_result
  (s s' : state) (r : Z) (startFreq deltaFrerq increment incIntervall : Z)
  (INCRTYPE : AD5932_IncIntervall_t)
  (SWEEPTYPE WAVE_TYPE MSBOUT TRIGGER SYNCSEL SYNCOUT : RegBits_t) :
  AD5932_SweepGenerator startFreq deltaFrerq increment INCRTYPE incIntervall
    SWEEPTYPE WAVE_TYPE MSBOUT TRIGGER SYNCSEL SYNCOUT s = Some (r, s') ->
  r = 0 \/ r = -1 \/ r = -4 \/ r = -5.
Proof.
  unfold AD5932_SweepGenerator. run.
  destruct (AD5932_SetControlRegister _ _ _ _ _ _ _) as [[r1 s1]|];
    [|discriminate].
  destruct (r1 <? 0); [intros H; returned H|].
  destruct (AD5932_SetStartFrequency _ s1) as [[r2 s2]|] eqn:E2;
    [|discriminate].
  rewrite (frequency_result_not_negative r2 (SetStartFrequency_result _ _ _ _ E2)).
  destruct (AD5932_SetDeltaFrequency _ _ s2) as [[r3 s3]|] eqn:E3;
    [|discriminate].
  rewrite (frequency_result_not_negative r3 (SetDeltaFrequency_result _ _ _ _ _ E3)).
  destruct (AD5932_SetIncrementIntervall _ _ s3) as [[r4 s4]|];
    [|discriminate].
  destruct (r4 <? 0); [intros H; returned H|].
  destruct (AD5932_SetIncrement _ s4) as [[r5 s5]|]; [|discriminate].
  destruct (r5 <? 0); [intros H; returned H|].
  destruct (RegBits_val TRIGGER =? RegBits_val AUTOMATIC_TRIGGER); run;
    intros H; returned H.
Qed.

(** A bus error on the control word does stop the sweep: nothing else is
    written and -1 is returned. *)
Lemma SweepGenerator_stops_at_control_word
  (s : state) (startFreq deltaFrerq increment incIntervall : Z)
  (INCRTYPE : AD5932_IncIntervall_t)
  (SWEEPTYPE WAVE_TYPE MSBOUT TRIGGER SYNCSEL SYNCOUT : RegBits_t) :
  let cw := control_word_spec DAC_EN WAVE_TYPE MSBOUT TRIGGER SYNCSEL SYNCOUT in
  let h := history s ++ [EvPin SPARE2 false] in
  SSP_GetTransferStatus (SSPPort s) h = SSP_STATUS_CLEAR ->
  SSP_Transfer (SSPPort s) (h ++ [EvStatus; EvPin SPARE0 false]) cw < 0 ->
  AD5932_SweepGenerator startFreq deltaFrerq increment INCRTYPE incIntervall
    SWEEPTYPE WAVE_TYPE MSBOUT TRIGGER SYNCSEL SYNCOUT s =
  Some (-1, push_cmd s cw ([EvPin SPARE2 false] ++ frame cw)).
Proof.
  intros cw h Hc Herr. unfold AD5932_SweepGenerator. run.
  rewrite SetControlRegister_word. fold cw.
  rewrite SendSPICommand_clear by exact Hc. run. fold h.
  replace (u16 cw) with cw by (symmetry; apply control_word_spec_u16).
  unfold reported. rewrite Z.min_r by lia.
  destruct (Z.ltb_spec (SSP_Transfer (SSPPort s)
              (h ++ [EvStatus; EvPin SPARE0 false]) cw) 0); [|lia].
  run. unfold h. rewrite app_assoc3. reflexivity.
Qed.

End Outcomes.

(** ** The driver at concrete inputs *)

Lemma RegBits_of_SweepType_val (t : AD5932_SweepType_t) :
  RegBits_val (RegBits_of_SweepType t) = SweepType_val t /\
  SweepType_of_RegBits (RegBits_of_SweepType t) = t.
Proof. destruct t; split; reflexivity. Qed.

Lemma ideal_bus_free :
  forall p h, @SSP_GetTransferStatus ideal_bus p h = @SSP_STATUS_CLEAR ideal_bus.
Proof. intros p h. reflexivity. Defined.

Lemma ideal_bus_ok : forall p h w, 0 <= @SSP_Transfer ideal_bus p h w.
Proof. intros p h w. cbn. discriminate. Defined.

(** C1 fails at f = mclk: the quotient is 2^24 itself, its low 24 bits are
    all zero, and the two words sent are the bare selectors. *)
Lemma start_frequency_at_mclk_loses_accumulator :
  0 < 1000 <= ad5932MCLK (ready 1000) /\
  exists s',
    @AD5932_SetStartFrequency ideal_bus 1000 (ready 1000) = Some (0, s') /\
    transfers (history s') = [0xC000; 0xD000] /\
    ~ carries_accumulator (ready 1000) s' 1000.
Proof.
  split; [cbn; lia|].
  eexists. split; [vm_compute; reflexivity|]. split; [reflexivity|].
  intros (lo & hi & Ht & Hacc & _).
  cbn in Ht. injection Ht as <- <-. vm_compute in Hacc. discriminate.
Qed.

Lemma frequency_words_rebuild_accumulator_witness :
  (forall p h, @SSP_GetTransferStatus ideal_bus p h = @SSP_STATUS_CLEAR ideal_bus) /\
  0 < 1000 < ad5932MCLK (ready 50000000) /\
  1000 <= 0x7FFFFFFF /\
  ad5932MCLK (ready 50000000) < 2 ^ 32 /\
  exists s',
    @AD5932_SetStartFrequency ideal_bus 1000 (ready 50000000) = Some (0, s') /\
    carries_accumulator (ready 50000000) s' 1000.
Proof.
  assert (H1 : 0 < 1000 < ad5932MCLK (ready 50000000)) by (cbn; lia).
  assert (H2 : 1000 <= 0x7FFFFFFF) by lia.
  assert (H3 : ad5932MCLK (ready 50000000) < 2 ^ 32) by (cbn; lia).
  split; [exact ideal_bus_free|].
  split; [exact H1|]. split; [exact H2|]. split; [exact H3|].
  exact (proj1 (@frequency_words_rebuild_accumulator ideal_bus ideal_bus_free
                  (ready 50000000) 1000 H1 H2 H3)).
Defined.

(** C2, observed.  A sweep whose increment count is 1: the last step rejects
    the count with 0xFFF0, which is not negative, so the sweep does not stop
    with -5; it pulses the trigger and returns 0. *)
Theorem sweep_ignores_rejected_increment :
  @AD5932_SetIncrement ideal_bus 1 (ready 50000000) =
    Some (AD5932_PARAM_ERROR, ready 50000000) /\
  @AD5932_SweepGenerator ideal_bus 1000 1000 1 WAVE_OUT_BASED 2000
    (RegBits_of_SweepType INCREMENTAL_SWEEP)
    SINE_OUT MSBOUT_EN AUTOMATIC_TRIGGER SYNCSEL_END SYNCOUT_EN
    (ready 50000000) =
  Some (0, push_cmd (ready 50000000) 0x47D0
             ([EvPin SPARE2 false]
              ++ frame 0x0FDF ++ frame 0xC14F ++ frame 0xD000
              ++ frame 0x214F ++ frame 0x3000 ++ frame 0x47D0
              ++ pulse)).
Proof. split; vm_compute; reflexivity. Qed.

(** The same on a bus that is never free: every step returns 0xFFFF, no word
    goes out, and the sweep still pulses the trigger and returns 0. *)
Lemma sweep_ignores_busy_bus :
  @AD5932_SweepGenerator busy_bus 1000 1000 2 WAVE_OUT_BASED 2000
    (RegBits_of_SweepType INCREMENTAL_SWEEP)
    SINE_OUT MSBOUT_EN AUTOMATIC_TRIGGER SYNCSEL_END SYNCOUT_EN
    (ready 50000000) =
  Some (0, push_cmd (ready 50000000) 0x1002
             ([EvPin SPARE2 false; EvStatus; EvStatus; EvStatus; EvStatus;
               EvStatus] ++ pulse)).
Proof. vm_compute. reflexivity. Qed.

(** C3 fails: with an increment count of 5000 six words have been written by
    the time the count is looked at. *)
Lemma sweep_writes_before_rejecting_increment :
  4095 < 5000 /\
  exists r s',
    @AD5932_SweepGenerator ideal_bus 1000 1000 5000 WAVE_OUT_BASED 2000
      (RegBits_of_SweepType INCREMENTAL_SWEEP)
      SINE_OUT MSBOUT_EN AUTOMATIC_TRIGGER SYNCSEL_END SYNCOUT_EN
      (ready 50000000) = Some (r, s') /\
    transfers (history s') = [0x0FDF; 0xC14F; 0xD000; 0x214F; 0x3000; 0x47D0] /\
    transfers (history s') <> transfers (history (ready 50000000)).
Proof.
  split; [lia|]. do 2 eexists.
  split; [vm_compute; reflexivity|]. split; [reflexivity|]. discriminate.
Qed.

Lemma sweep_validates_step_by_step_witness :
  (forall p h, @SSP_GetTransferStatus ideal_bus p h = @SSP_STATUS_CLEAR ideal_bus) /\
  (forall p h w, 0 <= @SSP_Transfer ideal_bus p h w) /\
  (u16 5000 < 2 \/ 4095 < u16 5000) /\
  0 < ad5932MCLK (ready 50000000) < 2 ^ 32 /\
  @AD5932_SetIncrement ideal_bus 5000 (ready 50000000) =
    Some (AD5932_PARAM_ERROR, ready 50000000) /\
  exists r s' rest,
    @AD5932_SweepGenerator ideal_bus 1000 1000 5000 WAVE_OUT_BASED 2000
      (RegBits_of_SweepType INCREMENTAL_SWEEP)
      SINE_OUT MSBOUT_EN AUTOMATIC_TRIGGER SYNCSEL_END SYNCOUT_EN
      (ready 50000000) = Some (r, s') /\
    transfers (history s') =
    transfers (history (ready 50000000)) ++
    control_word_spec DAC_EN SINE_OUT MSBOUT_EN AUTOMATIC_TRIGGER SYNCSEL_END
                      SYNCOUT_EN :: rest.
Proof.
  assert (H1 : u16 5000 < 2 \/ 4095 < u16 5000) by (right; reflexivity).
  assert (H2 : 0 < ad5932MCLK (ready 50000000) < 2 ^ 32) by (cbn; lia).
  pose proof (@sweep_validates_step_by_step ideal_bus ideal_bus_free
                ideal_bus_ok (ready 50000000) 1000 1000 5000 2000
                WAVE_OUT_BASED (RegBits_of_SweepType INCREMENTAL_SWEEP)
                SINE_OUT MSBOUT_EN AUTOMATIC_TRIGGER SYNCSEL_END SYNCOUT_EN)
    as (_ & _ & _ & Hinc & Hfirst & _).
  split; [exact ideal_bus_free|]. split; [exact ideal_bus_ok|].
  split; [exact H1|]. split; [exact H2|].
  split; [exact (Hinc H1)|exact (Hfirst H2)].
Defined.

(** C4, observed.  An interval of 2 on the clock-cycle basis: the word sent
    is 0x0002, selector 0000 and not 0110, because the setter ORs the value
    with the enumerator MCLK_INP_BASED (0) instead of the register code
    AD5932_TINT_MCLKCYCLES (0x6000).  The waveform-cycle basis gets 0100. *)
Theorem interval_clock_basis_sends_selector_0 :
  @AD5932_SetIncrementIntervall ideal_bus 2 MCLK_INP_BASED (ready 50000000) =
    Some (0, push_cmd (ready 50000000) 0x0002 (frame 0x0002)) /\
  selector 0x0002 = 0 /\
  selector (ControlRegs_val AD5932_TINT_MCLKCYCLES + 2) = 6 /\
  @AD5932_SetIncrementIntervall ideal_bus 2 WAVE_OUT_BASED (ready 50000000) =
    Some (0, push_cmd (ready 50000000) 0x4002 (frame 0x4002)) /\
  selector 0x4002 = 4.
Proof. repeat split; vm_compute; reflexivity. Qed.

(** C5, observed.  Both transfers of a start-frequency programming report -1;
    the frame-wrapped transmit hands -1 back, the start-frequency setter
    returns 0. *)
Theorem start_frequency_swallows_bus_error :
  @SSP_Transfer faulty_bus 0 [] 0xC14F = -1 /\
  @AD5932_SendSPICommand faulty_bus 0xC14F (ready 50000000) =
    Some (-1, push (ready 50000000) (frame 0xC14F)) /\
  @AD5932_SetStartFrequency faulty_bus 1000 (ready 50000000) =
    Some (0, push_cmd (ready 50000000) 0xD000 (frame 0xC14F ++ frame 0xD000)).
Proof. repeat split; vm_compute; reflexivity. Qed.

Lemma control_register_word_layout_witness :
  @SSP_GetTransferStatus ideal_bus (SSPPort power_up) (history power_up) =
    @SSP_STATUS_CLEAR ideal_bus /\
  exists r s',
    @AD5932_SetControlRegister ideal_bus DAC_EN SINE_OUT MSBOUT_EN
      AUTOMATIC_TRIGGER SYNCSEL_END SYNCOUT_EN power_up = Some (r, s') /\
    ad5932CMD s' = 0x0FDF /\
    history s' = history power_up ++ frame 0x0FDF /\
    transfers (history s') = transfers (history power_up) ++ [0x0FDF].
Proof.
  assert (H : @SSP_GetTransferStatus ideal_bus (SSPPort power_up)
                (history power_up) = @SSP_STATUS_CLEAR ideal_bus)
    by reflexivity.
  split; [exact H|].
  destruct (proj1 (@control_register_word_layout ideal_bus DAC_EN SINE_OUT
                     MSBOUT_EN AUTOMATIC_TRIGGER SYNCSEL_END SYNCOUT_EN
                     power_up))
    as (r & s' & Hrun & Hcmd & Hfree & _).
  exists r, s'. split; [exact Hrun|]. split; [exact Hcmd|]. exact (Hfree H).
Defined.

(** C7, observed.  At a 50 MHz clock, an incrementing sweep with a delta of
    30 MHz sends 0x2999 then 0x3999: bit 11 of the HIGH payload, which the
    setter's own comment calls the negative sweep indicator, is set although
    the sweep is incrementing.  A decrementing sweep with a delta of 5 MHz
    sends the very same two words, so the direction asked for is lost.  The
    setter masks the upper half of the quotient with 0xFFF and does not bound
    the delta frequency by the clock.  Below half the clock the bit is as
    asked: 5 MHz incrementing sends 0x3199, bit 11 clear. *)
Theorem delta_direction_lost_above_half_clock :
  @AD5932_SetDeltaFrequency ideal_bus 30000000 INCREMENTAL_SWEEP
    (ready 50000000) =
    Some (0, push_cmd (ready 50000000) 0x3999 (frame 0x2999 ++ frame 0x3999)) /\
  selector 0x3999 = 3 /\
  Z.testbit (payload 0x3999) 11 = true /\
  @AD5932_SetDeltaFrequency ideal_bus 5000000 DECREMENTAL_SWEEP
    (ready 50000000) =
    Some (0, push_cmd (ready 50000000) 0x3999 (frame 0x2999 ++ frame 0x3999)) /\
  @AD5932_SetDeltaFrequency ideal_bus 5000000 INCREMENTAL_SWEEP
    (ready 50000000) =
    Some (0, push_cmd (ready 50000000) 0x3199 (frame 0x2999 ++ frame 0x3199)) /\
  Z.testbit (payload 0x3199) 11 = false.
Proof. repeat split; vm_compute; reflexivity. Qed.

Lemma send_command_framing_witness :
  @SSP_GetTransferStatus busy_bus (SSPPort power_up) (history power_up) <>
    @SSP_STATUS_CLEAR busy_bus /\
  @AD5932_SendSPICommand busy_bus 0x0FDF power_up =
    Some (AD5932_PORT_BUSY, push power_up [EvStatus]) /\
  @SSP_GetTransferStatus ideal_bus (SSPPort power_up) (history power_up) =
    @SSP_STATUS_CLEAR ideal_bus /\
  @AD5932_SendSPICommand ideal_bus 0x0FDF power_up =
    Some (Z.min 0 (@SSP_Transfer ideal_bus (SSPPort power_up)
                     (history power_up ++ [EvStatus; EvPin SPARE0 false])
                     (u16 0x0FDF)),
          push power_up [EvStatus; EvPin SPARE0 false; EvTransfer (u16 0x0FDF);
                         EvPin SPARE0 true]).
Proof.
  assert (Hb : @SSP_GetTransferStatus busy_bus (SSPPort power_up)
                 (history power_up) <> @SSP_STATUS_CLEAR busy_bus)
    by (cbn; discriminate).
  assert (Hc : @SSP_GetTransferStatus ideal_bus (SSPPort power_up)
                 (history power_up) = @SSP_STATUS_CLEAR ideal_bus)
    by reflexivity.
  split; [exact Hb|].
  split; [exact (proj1 (@send_command_framing busy_bus 0x0FDF power_up) Hb)|].
  split; [exact Hc|].
  exact (proj2 (@send_command_framing ideal_bus 0x0FDF power_up) Hc).
Defined.

(** C9 fails on two words: the control word has trigger-type bit 5 set, not
    clear, and the low frequency word carries the start-frequency selector
    0xC000, not 0x2000. *)
Lemma single_frequency_scenario_words_differ :
  exists s',
    @AD5932_SingleFrequencyGenerator ideal_bus 1000 SINE_OUT MSBOUT_EN
      AUTOMATIC_TRIGGER (ready 50000000) = Some (0, s') /\
    transfers (history s') = [0x0FFF; 0xC14F; 0xD000] /\
    ~ (exists cw,
          transfers (history s') = [cw; Z.lor 0x2000 0x14F; Z.lor 0xD000 0x000] /\
          Z.testbit cw 5 = false).
Proof.
  eexists. split; [vm_compute; reflexivity|]. split; [reflexivity|].
  intros (cw & Ht & _). cbn in Ht. discriminate.
Qed.

Lemma single_frequency_scenario_witness :
  (forall p h, @SSP_GetTransferStatus ideal_bus p h = @SSP_STATUS_CLEAR ideal_bus) /\
  (forall p h w, 0 <= @SSP_Transfer ideal_bus p h w) /\
  ad5932MCLK (ready 50000000) = 50000000 /\
  @AD5932_SingleFrequencyGenerator ideal_bus 1000 SINE_OUT MSBOUT_EN
    AUTOMATIC_TRIGGER (ready 50000000) =
  Some (0, push_cmd (ready 50000000) 0xD000
             ([EvPin SPARE2 false]
              ++ frame 0x0FFF
              ++ frame (Z.lor 0xC000 0x14F)
              ++ frame (Z.lor 0xD000 0x000)
              ++ [EvPin SPARE2 true; EvDelay 100; EvPin SPARE2 false])).
Proof.
  split; [exact ideal_bus_free|]. split; [exact ideal_bus_ok|].
  split; [reflexivity|].
  exact (proj1 (@single_frequency_scenario ideal_bus ideal_bus_free
                  ideal_bus_ok (ready 50000000) eq_refl)).
Defined.

Lemma zero_frequency_start_rejected_delta_accepted_witness :
  (forall p h, @SSP_GetTransferStatus ideal_bus p h = @SSP_STATUS_CLEAR ideal_bus) /\
  0 < ad5932MCLK (ready 50000000) < 2 ^ 32 /\
  @AD5932_SetStartFrequency ideal_bus 0 (ready 50000000) =
    Some (AD5932_PARAM_ERROR, ready 50000000) /\
  @AD5932_SetDeltaFrequency ideal_bus 0 INCREMENTAL_SWEEP (ready 50000000) =
    Some (0, push_cmd (ready 50000000) 0x3000 (frame 0x2000 ++ frame 0x3000)).
Proof.
  assert (H : 0 < ad5932MCLK (ready 50000000) < 2 ^ 32) by (cbn; lia).
  pose proof (@zero_frequency_start_rejected_delta_accepted ideal_bus
                ideal_bus_free (ready 50000000) INCREMENTAL_SWEEP)
    as (Hstart & Hdelta).
  split; [exact ideal_bus_free|]. split; [exact H|].
  split; [exact Hstart|exact (proj1 (Hdelta H))].
Defined.

(** The self-test at mclk = 16 MHz: seven words, one trigger pulse, 0. *)
Lemma TestSetup_16MHz :
  @AD5932_TestSetup ideal_bus (ready 16000000) =
  Some (0, push_cmd (ready 16000000) 0x1002
             ([EvPin SPARE2 false]
              ++ frame 0x0FDF ++ frame 0xC418 ++ frame 0xD000
              ++ frame 0x2418 ++ frame 0x3000 ++ frame 0x47D0
              ++ frame 0x1002 ++ pulse)).
Proof. vm_compute. reflexivity. Qed.

(** ** Bus discipline, on any bus *)

Lemma fsync_run_app (a b : list event) (low : bool) :
  fsync_run low (a ++ b) =
  match fsync_run low a with
  | Some low' => fsync_run low' b
  | None => None
  end.
Proof.
  revert low. induction a as [|e a IH]; intros low; [reflexivity|].
  destruct e as [|p level|w|us]; cbn [app fsync_run].
  - apply IH.
  - destruct p; apply IH.
  - destruct low; [apply IH|reflexivity].
  - apply IH.
Qed.

Lemma bus_trace_nil : bus_trace 0 [].
Proof. repeat split. cbn. lia. Qed.

Lemma bus_trace_weaken (n m : nat) (evs : list event) :
  (n <= m)%nat -> bus_trace n evs -> bus_trace m evs.
Proof. intros Hle (H1 & H2 & H3 & H4). repeat split; try assumption. lia. Qed.

Lemma bus_trace_app (n m : nat) (a b : list event) :
  bus_trace n a -> bus_trace m b -> bus_trace (n + m) (a ++ b).
Proof.
  intros (A1 & A2 & A3 & A4) (B1 & B2 & B3 & B4).
  repeat split.
  - rewrite forallb_app, A1, B1. reflexivity.
  - rewrite fsync_run_app, A2. exact B2.
  - rewrite transfers_app, forallb_app, A3, B3. reflexivity.
  - rewrite transfers_app, length_app. lia.
Qed.

Lemma u16_word16 (x : Z) : word16 (u16 x) = true.
Proof.
  unfold word16, u16.
  pose proof (Z.mod_pos_bound x (2 ^ 16) ltac:(lia)) as [H1 H2].
  apply andb_true_intro. split; [apply Z.leb_le|apply Z.ltb_lt]; assumption.
Qed.

Lemma bus_trace_poll : bus_trace 0 [EvStatus].
Proof. repeat split. cbn. lia. Qed.

Lemma bus_trace_frame (w : Z) : bus_trace 1 (frame (u16 w)).
Proof.
  repeat split.
  - cbn [frame transfers forallb]. rewrite u16_word16. reflexivity.
  - cbn. lia.
Qed.

Lemma bus_step_intro (n : nat) (s : state) (p c m : Z) (h evs : list event) :
  p = SSPPort s -> m = ad5932MCLK s -> h = history s ++ evs ->
  bus_trace n evs -> bus_step n s (mkState p c m h).
Proof. intros -> -> -> H. repeat split. now exists evs. Qed.

Lemma bus_step_refl (s : state) : bus_step 0 s s.
Proof.
  repeat split. exists []. split; [now rewrite app_nil_r|apply bus_trace_nil].
Qed.

Lemma bus_step_weaken (n m : nat) (s s' : state) :
  (n <= m)%nat -> bus_step n s s' -> bus_step m s s'.
Proof.
  intros Hle (H1 & H2 & evs & H3 & H4). repeat split; try assumption.
  exists evs. split; [assumption|]. now apply (bus_trace_weaken n m).
Qed.

Lemma bus_step_trans (n m : nat) (a b c : state) :
  bus_step n a b -> bus_step m b c -> bus_step (n + m) a c.
Proof.
  intros (Hp1 & Hm1 & e1 & H1 & T1) (Hp2 & Hm2 & e2 & H2 & T2).
  repeat split; try congruence.
  exists (e1 ++ e2). split; [rewrite H2, H1; apply app_assoc3|].
  now apply bus_trace_app.
Qed.

Section Discipline.

Context {P : Platform}.

(** One transmission: busy and nothing sent, or one frame and a result that
    is not positive. *)
Lemma SendSPICommand_shape (w : Z) (s : state) :
  exists r evs,
    AD5932_SendSPICommand w s = Some (r, push s evs) /\
    bus_trace 1 evs /\
    ((r = AD5932_PORT_BUSY /\ evs = [EvStatus]) \/
     (r <= 0 /\ evs = frame (u16 w))).
Proof.
  destruct (Z.eq_dec (SSP_GetTransferStatus (SSPPort s) (history s))
                     SSP_STATUS_CLEAR) as [Hc|Hb].
  - rewrite SendSPICommand_clear by exact Hc.
    do 2 eexists. split; [reflexivity|]. split; [apply bus_trace_frame|].
    right. split; [unfold reported; lia|reflexivity].
  - rewrite SendSPICommand_busy by exact Hb.
    do 2 eexists. split; [reflexivity|].
    split; [apply (bus_trace_weaken 0 1); [lia|apply bus_trace_poll]|].
    left. split; reflexivity.
Qed.

Lemma SendSPICommand_step (w : Z) (s : state) :
  exists r s',
    AD5932_SendSPICommand w s = Some (r, s') /\
    bus_step 1 s s' /\ ad5932CMD s' = ad5932CMD s /\
    (r = AD5932_PORT_BUSY \/ r <= 0).
Proof.
  destruct (SendSPICommand_shape w s) as (r & evs & E & T & Hr).
  exists r, (push s evs). split; [exact E|].
  split; [unfold push; apply (bus_step_intro 1 s _ _ _ _ evs); auto|].
  split; [reflexivity|].
  destruct Hr as [[-> _]|[Hr _]]; auto.
Qed.

Lemma SetControlRegister_step (D W M T SL SO : RegBits_t) (s : state) :
  exists r s',
    AD5932_SetControlRegister D W M T SL SO s = Some (r, s') /\
    bus_step 1 s s' /\ (r = AD5932_PORT_BUSY \/ r <= 0).
Proof.
  rewrite SetControlRegister_word.
  destruct (SendSPICommand_step (control_word_spec D W M T SL SO)
              (with_CMD s (control_word_spec D W M T SL SO)))
    as (r & s' & E & B & _ & Hr).
  exists r, s'. split; [exact E|]. split; [exact B|exact Hr].
Qed.

Lemma SetIncrement_step (value : Z) (s : state) :
  exists r s',
    AD5932_SetIncrement value s = Some (r, s') /\
    bus_step 1 s s' /\
    (r = AD5932_PARAM_ERROR \/ r = AD5932_PORT_BUSY \/ r <= 0).
Proof.
  destruct (Z_le_dec 2 (u16 value)); [destruct (Z_le_dec (u16 value) 4095)|].
  - rewrite SetIncrement_word by lia.
    destruct (SendSPICommand_step (ControlRegs_val AD5932_NINCR + u16 value)
                (with_CMD s (ControlRegs_val AD5932_NINCR + u16 value)))
      as (r & s' & E & B & _ & Hr).
    exists r, s'. split; [exact E|]. split; [exact B|auto].
  - rewrite SetIncrement_rejects by lia. do 2 eexists.
    split; [reflexivity|].
    split; [apply (bus_step_weaken 0 1); [lia|apply bus_step_refl]|auto].
  - rewrite SetIncrement_rejects by lia. do 2 eexists.
    split; [reflexivity|].
    split; [apply (bus_step_weaken 0 1); [lia|apply bus_step_refl]|auto].
Qed.

Lemma SetIncrementIntervall_step
  (value : Z) (b : AD5932_IncIntervall_t) (s : state) :
  exists r s',
    AD5932_SetIncrementIntervall value b s = Some (r, s') /\
    bus_step 1 s s' /\
    (r = AD5932_PARAM_ERROR \/ r = AD5932_PORT_BUSY \/ r <= 0).
Proof.
  destruct (Z_le_dec 2 (u16 value)); [destruct (Z_le_dec (u16 value) 2047)|].
  - rewrite SetIncrementIntervall_word by lia. cbv zeta.
    match goal with
    | |- context [AD5932_SendSPICommand ?w ?s0] =>
        destruct (SendSPICommand_step w s0) as (r & s' & E & B & _ & Hr)
    end.
    exists r, s'. split; [exact E|]. split; [exact B|auto].
  - rewrite SetIncrementIntervall_rejects by lia. do 2 eexists.
    split; [reflexivity|].
    split; [apply (bus_step_weaken 0 1); [lia|apply bus_step_refl]|auto].
  - rewrite SetIncrementIntervall_rejects by lia. do 2 eexists.
    split; [reflexivity|].
    split; [apply (bus_step_weaken 0 1); [lia|apply bus_step_refl]|auto].
Qed.

Ltac send_step :=
  match goal with
  | |- context [AD5932_SendSPICommand ?w ?s0] =>
      let r := fresh "r" in
      let s1 := fresh "s" in
      let E := fresh "E" in
      let B := fresh "B" in
      let C := fresh "C" in
      let Hr := fresh "Hr" in
      destruct (SendSPICommand_step w s0) as (r & s1 & E & B & C & Hr);
      rewrite E; clear E; cbv beta iota
  end.

(** A frequency setter either is undefined, which happens exactly when its
    value is in range and the clock is 0, or returns after at most two
    words with 0, busy or the parameter error. *)
Lemma SetStartFrequency_step (value : Z) (s : state) :
  match AD5932_SetStartFrequency value s with
  | Some (r, s') =>
      bus_step 2 s s' /\
      (r = 0 \/ r = AD5932_PORT_BUSY \/ r = AD5932_PARAM_ERROR)
  | None => 1 <= u32 value <= 0x7FFFFFFF /\ u64 (ad5932MCLK s) = 0
  end.
Proof.
  unfold AD5932_SetStartFrequency, div_u64. run.
  destruct (Z.gtb_spec (u32 value) 0x7FFFFFFF), (Z.ltb_spec (u32 value) 1);
    cbn [orb];
    try (split; [apply (bus_step_weaken 0 2); [lia|apply bus_step_refl]|auto]).
  destruct (Z.eqb_spec (u64 (ad5932MCLK s)) 0) as [Hz|Hz]; run;
    [split; [lia|exact Hz]|].
  send_step.
  destruct (Z.eqb_spec r AD5932_PORT_BUSY) as [-> | Hn1].
  { split; [apply (bus_step_weaken 1 2); [lia|exact B]|auto]. }
  run. send_step.
  assert (B2 : bus_step 2 s s1).
  { apply (bus_step_trans 1 1 s s0 s1); [exact B|].
    destruct B0 as (Hp & Hm & evs & Hh & Ht).
    repeat split; try assumption. exists evs. split; assumption. }
  destruct (Z.eqb_spec r0 AD5932_PORT_BUSY) as [-> | Hn2];
    split; auto.
Qed.

Lemma SetDeltaFrequency_step
  (value : Z) (t : AD5932_SweepType_t) (s : state) :
  match AD5932_SetDeltaFrequency value t s with
  | Some (r, s') =>
      bus_step 2 s s' /\
      (r = 0 \/ r = AD5932_PORT_BUSY \/ r = AD5932_PARAM_ERROR)
  | None => u32 value <= 0x7FFFFFFF /\ u64 (ad5932MCLK s) = 0
  end.
Proof.
  unfold AD5932_SetDeltaFrequency, div_u64. run.
  destruct (Z.gtb_spec (u32 value) 0x7FFFFFFF);
    try (split; [apply (bus_step_weaken 0 2); [lia|apply bus_step_refl]|auto]).
  destruct (Z.eqb_spec (u64 (ad5932MCLK s)) 0) as [Hz|Hz]; run;
    [split; [lia|exact Hz]|].
  send_step.
  destruct (Z.eqb_spec r AD5932_PORT_BUSY) as [-> | Hn1].
  { split; [apply (bus_step_weaken 1 2); [lia|exact B]|auto]. }
  destruct (SweepType_val t =? SweepType_val DECREMENTAL_SWEEP); run;
    send_step;
    (assert (B2 : bus_step 2 s s1);
     [apply (bus_step_trans 1 1 s s0 s1); [exact B|];
      destruct B0 as (Hp & Hm & evs & Hh & Ht);
      repeat split; try assumption; exists evs; split; assumption|]);
    destruct (Z.eqb_spec r0 AD5932_PORT_BUSY) as [-> | Hn2];
    split; auto.
Qed.

End Discipline.

(** ** Further properties: the setters *)

Lemma u16_of_u32 (x : Z) : u16 (u32 x) = u16 x.
Proof.
  unfold u16, u32. apply Z.mod_mod_divide.
  exists (2 ^ 16). reflexivity.
Qed.

Lemma u16_u32_shift (x k : Z) : u16 (u32 (x + k * 65536)) = u16 (u32 x).
Proof.
  rewrite !u16_of_u32. unfold u16. change (2 ^ 16) with 65536.
  apply Z.mod_add. lia.
Qed.

Section SetterProperties.

Context {P : Platform}.

(** X1.  The increment-count setter looks at its value as 16 bits.  A value
    below 2 or above 4095 is rejected with the parameter error and nothing
    happens.  A value n in [2,4095] gives the word 0x1000 + n, selector 0001
    and payload n, left in [ad5932CMD]; on a free bus exactly that word is
    framed and sent and the result is not positive, on a busy bus only the
    poll happens and the busy code is returned. *)
Theorem increment_count_setter (value : Z) (s : state) :
  (u16 value < 2 \/ 4095 < u16 value ->
   AD5932_SetIncrement value s = Some (AD5932_PARAM_ERROR, s)) /\
  (2 <= u16 value <= 4095 ->
   let w := 0x1000 + u16 value in
   selector w = 1 /\ payload w = u16 value /\
   exists r s',
     AD5932_SetIncrement value s = Some (r, s') /\
     ad5932CMD s' = w /\
     (SSP_GetTransferStatus (SSPPort s) (history s) = SSP_STATUS_CLEAR ->
      r <= 0 /\ history s' = history s ++ frame w) /\
     (SSP_GetTransferStatus (SSPPort s) (history s) <> SSP_STATUS_CLEAR ->
      r = AD5932_PORT_BUSY /\ history s' = history s ++ [EvStatus])).
Proof.
  split; [apply SetIncrement_rejects|].
  intros Hv w.
  assert (Hw : w = ControlRegs_val AD5932_NINCR + u16 value) by reflexivity.
  split; [rewrite Hw, selector_reg_word by lia; reflexivity|].
  split; [rewrite Hw; apply payload_reg_word; lia|].
  rewrite SetIncrement_word by exact Hv. rewrite <- Hw.
  destruct (Z.eq_dec (SSP_GetTransferStatus (SSPPort s) (history s))
                     SSP_STATUS_CLEAR) as [Hc|Hb].
  - rewrite SendSPICommand_clear by exact Hc.
    rewrite (u16_small w) by (unfold w; lia).
    do 2 eexists. split; [reflexivity|]. run.
    split; [reflexivity|]. split; [|intros Hb; contradiction].
    intros _. split; [unfold reported; lia|reflexivity].
  - rewrite SendSPICommand_busy by exact Hb.
    do 2 eexists. split; [reflexivity|]. run.
    split; [reflexivity|]. split; [intros Hc; contradiction|].
    intros _. split; reflexivity.
Qed.

(** X2.  The increment-interval setter looks at its value as 16 bits.  A value
    below 2 or above 2047 is rejected with the parameter error and nothing
    happens.  A value t in [2,2047] gives, for WAVE_OUT_BASED, the word
    0x4000 + t (selector 0100, payload t) and, for MCLK_INP_BASED, the word t
    itself (selector 0000, payload t); the word is left in [ad5932CMD], and on
    a free bus exactly that word is framed and sent. *)
Theorem increment_interval_setter
  (value : Z) (incrementBase : AD5932_IncIntervall_t) (s : state) :
  (u16 value < 2 \/ 2047 < u16 value ->
   AD5932_SetIncrementIntervall value incrementBase s =
   Some (AD5932_PARAM_ERROR, s)) /\
  (2 <= u16 value <= 2047 ->
   let w := match incrementBase with
            | WAVE_OUT_BASED => 0x4000 + u16 value
            | MCLK_INP_BASED => u16 value
            end in
   selector w = match incrementBase with
                | WAVE_OUT_BASED => 4
                | MCLK_INP_BASED => 0
                end /\
   payload w = u16 value /\
   exists r s',
     AD5932_SetIncrementIntervall value incrementBase s = Some (r, s') /\
     ad5932CMD s' = w /\
     (SSP_GetTransferStatus (SSPPort s) (history s) = SSP_STATUS_CLEAR ->
      r <= 0 /\ history s' = history s ++ frame w) /\
     (SSP_GetTransferStatus (SSPPort s) (history s) <> SSP_STATUS_CLEAR ->
      r = AD5932_PORT_BUSY /\ history s' = history s ++ [EvStatus])).
Proof.
  split; [apply SetIncrementIntervall_rejects|].
  intros Hv w.
  assert (Hsel : selector w = match incrementBase with
                              | WAVE_OUT_BASED => 4
                              | MCLK_INP_BASED => 0
                              end).
  { unfold w. destruct incrementBase.
    - change 0x4000 with (ControlRegs_val AD5932_TINT_WCYCLES).
      rewrite selector_reg_word by lia. reflexivity.
    - unfold selector. rewrite shiftr_12. apply Z.div_small. lia. }
  assert (Hpay : payload w = u16 value).
  { unfold w. destruct incrementBase.
    - change 0x4000 with (ControlRegs_val AD5932_TINT_WCYCLES).
      apply payload_reg_word. lia.
    - unfold payload. rewrite land_low12. apply Z.mod_small. lia. }
  assert (H16 : u16 w = w)
    by (apply u16_small; unfold w; destruct incrementBase; lia).
  split; [exact Hsel|]. split; [exact Hpay|].
  rewrite SetIncrementIntervall_word by exact Hv. cbv zeta.
  change (ControlRegs_val AD5932_TINT_WCYCLES) with 0x4000. fold w.
  destruct (Z.eq_dec (SSP_GetTransferStatus (SSPPort s) (history s))
                     SSP_STATUS_CLEAR) as [Hc|Hb].
  - rewrite SendSPICommand_clear by exact Hc. rewrite H16.
    do 2 eexists. split; [reflexivity|]. run.
    split; [reflexivity|]. split; [|intros Hb; contradiction].
    intros _. split; [unfold reported; lia|reflexivity].
  - rewrite SendSPICommand_busy by exact Hb.
    do 2 eexists. split; [reflexivity|]. run.
    split; [reflexivity|]. split; [intros Hc; contradiction|].
    intros _. split; reflexivity.
Qed.

(** X3.  The sweep hands its 32-bit increment count and increment interval
    to setters that take 16 bits, so only the low 16 bits of either count:
    adding any multiple of 65536 to them changes nothing. *)
Theorem sweep_counts_are_narrowed
  (s : state) (startFreq deltaFrerq increment incIntervall k j : Z)
  (INCRTYPE : AD5932_IncIntervall_t)
  (SWEEPTYPE WAVE_TYPE MSBOUT TRIGGER SYNCSEL SYNCOUT : RegBits_t) :
  AD5932_SweepGenerator startFreq deltaFrerq (increment + k * 65536) INCRTYPE
    (incIntervall + j * 65536)
    SWEEPTYPE WAVE_TYPE MSBOUT TRIGGER SYNCSEL SYNCOUT s =
  AD5932_SweepGenerator startFreq deltaFrerq increment INCRTYPE incIntervall
    SWEEPTYPE WAVE_TYPE MSBOUT TRIGGER SYNCSEL SYNCOUT s.
Proof.
  unfold AD5932_SweepGenerator, AD5932_SetIncrement,
    AD5932_SetIncrementIntervall.
  cbv zeta. rewrite !u16_u32_shift. reflexivity.
Qed.

(** X4.  On any bus, whatever the transfers report, a frequency setter that
    returns has returned 0, the busy code or the parameter error: a negative
    transfer result never reaches its caller. *)
Theorem frequency_setters_never_negative
  (value : Z) (SweepType : AD5932_SweepType_t) (s s' : state) (r : Z) :
  (AD5932_SetStartFrequency value s = Some (r, s') ->
   r = 0 \/ r = AD5932_PORT_BUSY \/ r = AD5932_PARAM_ERROR) /\
  (AD5932_SetDeltaFrequency value SweepType s = Some (r, s') ->
   r = 0 \/ r = AD5932_PORT_BUSY \/ r = AD5932_PARAM_ERROR).
Proof.
  split; intros H.
  - exact (SetStartFrequency_result value s s' r H).
  - exact (SetDeltaFrequency_result value SweepType s s' r H).
Qed.

(** X5.  On any bus and for any parameters, a sweep that returns has returned
    0, -1, -4 or -5: never -2 or -3, never the busy code, never the parameter
    error. *)
Theorem sweep_return_codes
  (s s' : state) (r : Z) (startFreq deltaFrerq increment incIntervall : Z)
  (INCRTYPE : AD5932_IncIntervall_t)
  (SWEEPTYPE WAVE_TYPE MSBOUT TRIGGER SYNCSEL SYNCOUT : RegBits_t) :
  AD5932_SweepGenerator startFreq deltaFrerq increment INCRTYPE incIntervall
    SWEEPTYPE WAVE_TYPE MSBOUT TRIGGER SYNCSEL SYNCOUT s = Some (r, s') ->
  r = 0 \/ r = -1 \/ r = -4 \/ r = -5.
Proof. apply SweepGenerator_result. Qed.

(** X6.  A frequency setter is undefined (it divides by the stored clock)
    exactly when its value passes the range check and the clock is 0; a value
    that is rejected never reaches the division. *)
Theorem frequency_setter_undefined_iff
  (value : Z) (SweepType : AD5932_SweepType_t) (s : state) :
  (AD5932_SetStartFrequency value s = None <->
   1 <= u32 value <= 0x7FFFFFFF /\ u64 (ad5932MCLK s) = 0) /\
  (AD5932_SetDeltaFrequency value SweepType s = None <->
   u32 value <= 0x7FFFFFFF /\ u64 (ad5932MCLK s) = 0).
Proof.
  split; split.
  - intros H. pose proof (SetStartFrequency_step value s) as Hs.
    rewrite H in Hs. exact Hs.
  - intros [Hv Hz]. unfold AD5932_SetStartFrequency, div_u64. run.
    destruct (Z.gtb_spec (u32 value) 0x7FFFFFFF), (Z.ltb_spec (u32 value) 1);
      try lia.
    cbn [orb]. rewrite Hz. reflexivity.
  - intros H. pose proof (SetDeltaFrequency_step value SweepType s) as Hs.
    rewrite H in Hs. exact Hs.
  - intros [Hv Hz]. unfold AD5932_SetDeltaFrequency, div_u64. run.
    destruct (Z.gtb_spec (u32 value) 0x7FFFFFFF); try lia.
    rewrite Hz. reflexivity.
Qed.

End SetterProperties.

(** ** Further properties: the sequencer on any bus *)

Lemma sequencer_abort
  (n m : nat) (T : RegBits_t) (s sk : state) (r : Z) :
  bus_step n (push s [EvPin SPARE2 false]) sk -> (n <= m)%nat -> r <> 0 ->
  sequencer_run m T s r sk.
Proof.
  intros (Hp & Hm & evs & Hh & Ht) Hle Hr.
  repeat split; try assumption.
  exists evs. split; [now apply (bus_trace_weaken n m)|].
  apply Z.eqb_neq in Hr. rewrite Hr. cbn [andb].
  rewrite Hh. cbn [push history]. rewrite app_nil_r, app_assoc3. reflexivity.
Qed.

Lemma sequencer_finish_pulse
  (n m : nat) (T : RegBits_t) (s sk : state) (c : Z) :
  bus_step n (push s [EvPin SPARE2 false]) sk -> (n <= m)%nat ->
  (RegBits_val T =? RegBits_val AUTOMATIC_TRIGGER) = true ->
  sequencer_run m T s 0
    (mkState (SSPPort sk) c (ad5932MCLK sk)
       (((history sk ++ [EvPin SPARE2 true]) ++ [EvDelay 100])
        ++ [EvPin SPARE2 false])).
Proof.
  intros (Hp & Hm & evs & Hh & Ht) Hle Hauto.
  repeat split; try assumption.
  exists evs. split; [now apply (bus_trace_weaken n m)|].
  rewrite Hauto. cbn [Z.eqb andb history]. rewrite Hh. cbn [push history].
  rewrite !app_assoc3. reflexivity.
Qed.

Lemma sequencer_finish_quiet
  (n m : nat) (T : RegBits_t) (s sk : state) :
  bus_step n (push s [EvPin SPARE2 false]) sk -> (n <= m)%nat ->
  (RegBits_val T =? RegBits_val AUTOMATIC_TRIGGER) = false ->
  sequencer_run m T s 0 sk.
Proof.
  intros (Hp & Hm & evs & Hh & Ht) Hle Hauto.
  repeat split; try assumption.
  exists evs. split; [now apply (bus_trace_weaken n m)|].
  rewrite Hauto. cbn [Z.eqb andb]. rewrite Hh. cbn [push history].
  rewrite app_nil_r, app_assoc3. reflexivity.
Qed.

Section SequencerDiscipline.

Context {P : Platform}.

Lemma SweepGenerator_run
  (s : state) (startFreq deltaFrerq increment incIntervall : Z)
  (INCRTYPE : AD5932_IncIntervall_t)
  (SWEEPTYPE WAVE_TYPE MSBOUT TRIGGER SYNCSEL SYNCOUT : RegBits_t) :
  match AD5932_SweepGenerator startFreq deltaFrerq increment INCRTYPE
          incIntervall SWEEPTYPE WAVE_TYPE MSBOUT TRIGGER SYNCSEL SYNCOUT s
  with
  | Some (r, s') => sequencer_run 7 TRIGGER s r s'
  | None => u64 (ad5932MCLK s) = 0
  end.
Proof.
  unfold AD5932_SweepGenerator. run.
  match goal with
  | |- context [AD5932_SetControlRegister _ _ _ _ _ _ ?s0] =>
      destruct (SetControlRegister_step DAC_EN WAVE_TYPE MSBOUT TRIGGER
                  SYNCSEL SYNCOUT s0) as (r1 & s1 & E1 & B1 & _)
  end.
  rewrite E1. cbv beta iota.
  destruct (Z.ltb_spec r1 0) as [_|_].
  { apply (sequencer_abort 1); [exact B1|lia|lia]. }
  pose proof (SetStartFrequency_step (u32 startFreq) s1) as H2.
  destruct (AD5932_SetStartFrequency (u32 startFreq) s1) as [[r2 s2]|];
    [|destruct B1 as (_ & Hm1 & _); cbn [ad5932MCLK] in Hm1;
      rewrite <- Hm1; apply H2].
  destruct H2 as (B2 & R2).
  rewrite (frequency_result_not_negative r2 R2).
  pose proof (bus_step_trans 1 2 _ _ _ B1 B2) as B12.
  pose proof (SetDeltaFrequency_step (u32 deltaFrerq)
                (SweepType_of_RegBits SWEEPTYPE) s2) as H3.
  destruct (AD5932_SetDeltaFrequency (u32 deltaFrerq)
              (SweepType_of_RegBits SWEEPTYPE) s2) as [[r3 s3]|];
    [|destruct B12 as (_ & Hm2 & _); cbn [ad5932MCLK] in Hm2;
      rewrite <- Hm2; apply H3].
  destruct H3 as (B3 & R3).
  rewrite (frequency_result_not_negative r3 R3).
  pose proof (bus_step_trans _ 2 _ _ _ B12 B3) as B123.
  destruct (SetIncrementIntervall_step (u32 incIntervall) INCRTYPE s3)
    as (r4 & s4 & E4 & B4 & _).
  rewrite E4. cbv beta iota.
  pose proof (bus_step_trans _ 1 _ _ _ B123 B4) as B1234.
  destruct (Z.ltb_spec r4 0) as [_|_].
  { apply (sequencer_abort _ 7 _ _ _ _ B1234); cbn; lia. }
  destruct (SetIncrement_step (u32 increment) s4) as (r5 & s5 & E5 & B5 & _).
  rewrite E5. cbv beta iota.
  pose proof (bus_step_trans _ 1 _ _ _ B1234 B5) as Ball.
  destruct (Z.ltb_spec r5 0) as [_|_].
  { apply (sequencer_abort _ 7 _ _ _ _ Ball); cbn; lia. }
  destruct (RegBits_val TRIGGER =? RegBits_val AUTOMATIC_TRIGGER) eqn:Hauto;
    run.
  - apply (sequencer_finish_pulse _ 7 _ _ _ _ Ball); [cbn; lia|exact Hauto].
  - apply (sequencer_finish_quiet _ 7 _ _ _ Ball); [cbn; lia|exact Hauto].
Qed.

Lemma SingleFrequencyGenerator_run
  (s : state) (frequency : Z) (WAVE_TYPE MSBOUT TRIGGER : RegBits_t) :
  match AD5932_SingleFrequencyGenerator frequency WAVE_TYPE MSBOUT TRIGGER s
  with
  | Some (r, s') => sequencer_run 3 TRIGGER s r s' /\ (r = 0 \/ r = -1)
  | None => u64 (ad5932MCLK s) = 0
  end.
Proof.
  unfold AD5932_SingleFrequencyGenerator. run.
  match goal with
  | |- context [AD5932_SetControlRegister _ _ _ _ _ _ ?s0] =>
      destruct (SetControlRegister_step DAC_EN WAVE_TYPE MSBOUT
                  EXTERNAL_TRIGGER SYNCSEL_END SYNCOUT_EN s0)
        as (r1 & s1 & E1 & B1 & _)
  end.
  rewrite E1. cbv beta iota.
  destruct (Z.ltb_spec r1 0) as [_|_].
  { split; [apply (sequencer_abort 1); [exact B1|lia|lia]|auto]. }
  pose proof (SetStartFrequency_step (u32 frequency) s1) as H2.
  destruct (AD5932_SetStartFrequency (u32 frequency) s1) as [[r2 s2]|];
    [|destruct B1 as (_ & Hm1 & _); cbn [ad5932MCLK] in Hm1;
      rewrite <- Hm1; apply H2].
  destruct H2 as (B2 & R2).
  rewrite (frequency_result_not_negative r2 R2).
  pose proof (bus_step_trans 1 2 _ _ _ B1 B2) as B12.
  destruct (RegBits_val TRIGGER =? RegBits_val AUTOMATIC_TRIGGER) eqn:Hauto;
    run; (split; [|auto]).
  - apply (sequencer_finish_pulse _ 3 _ _ _ _ B12); [cbn; lia|exact Hauto].
  - apply (sequencer_finish_quiet _ 3 _ _ _ B12); [cbn; lia|exact Hauto].
Qed.

(** X7.  On any bus and for any parameters, a sweep that returns has done
    this and nothing else: driven CTRL low; run the bus with FSYNC high at
    both ends, at most seven words, each of 16 bits and each transferred
    while FSYNC was low; and pulsed the trigger if and only if it returns 0
    and the trigger is automatic.  The port and the stored clock are
    unchanged. *)
Theorem sweep_bus_discipline
  (s s' : state) (r : Z) (startFreq deltaFrerq increment incIntervall : Z)
  (INCRTYPE : AD5932_IncIntervall_t)
  (SWEEPTYPE WAVE_TYPE MSBOUT TRIGGER SYNCSEL SYNCOUT : RegBits_t) :
  AD5932_SweepGenerator startFreq deltaFrerq increment INCRTYPE incIntervall
    SWEEPTYPE WAVE_TYPE MSBOUT TRIGGER SYNCSEL SYNCOUT s = Some (r, s') ->
  sequencer_run 7 TRIGGER s r s'.
Proof.
  intros H.
  pose proof (SweepGenerator_run s startFreq deltaFrerq increment incIntervall
                INCRTYPE SWEEPTYPE WAVE_TYPE MSBOUT TRIGGER SYNCSEL SYNCOUT)
    as Hrun.
  rewrite H in Hrun. exact Hrun.
Qed.

(** X8.  On any bus, a single-frequency programming that returns has
    returned 0 or -1, never -2, and has done this and nothing else: driven
    CTRL low; run the bus with at most three 16-bit words, each inside its
    FSYNC window; and pulsed the trigger if and only if it returns 0 and the
    trigger is automatic. *)
Theorem single_frequency_bus_discipline
  (s s' : state) (r : Z) (frequency : Z) (WAVE_TYPE MSBOUT TRIGGER : RegBits_t) :
  AD5932_SingleFrequencyGenerator frequency WAVE_TYPE MSBOUT TRIGGER s =
    Some (r, s') ->
  sequencer_run 3 TRIGGER s r s' /\ (r = 0 \/ r = -1).
Proof.
  intros H.
  pose proof (SingleFrequencyGenerator_run s frequency WAVE_TYPE MSBOUT TRIGGER)
    as Hrun.
  rewrite H in Hrun. exact Hrun.
Qed.

(** X10.  The self-test is the sweep with fixed parameters: on any bus and
    from any state it does exactly what a sweep of 1000 Hz start, 1000 Hz
    delta, 2 increments, 2000 waveform cycles per step, incrementing, sine,
    MSB-out enabled, automatic trigger, sync at end of scan, sync-out enabled
    does. *)
Theorem self_test_is_a_sweep (s : state) :
  AD5932_TestSetup s =
  AD5932_SweepGenerator 1000 1000 2 WAVE_OUT_BASED 2000
    (RegBits_of_SweepType INCREMENTAL_SWEEP)
    SINE_OUT MSBOUT_EN AUTOMATIC_TRIGGER SYNCSEL_END SYNCOUT_EN s.
Proof. reflexivity. Qed.

End SequencerDiscipline.

(** ** Further properties: the sequencer on a free bus *)

Lemma control_word_spec_selector (D W M T SL SO : RegBits_t) :
  selector (control_word_spec D W M T SL SO) = 0.
Proof.
  unfold control_word_spec.
  destruct (RegBits_val_01 D) as [-> | ->], (RegBits_val_01 W) as [-> | ->],
    (RegBits_val_01 M) as [-> | ->], (RegBits_val_01 T) as [-> | ->],
    (RegBits_val_01 SL) as [-> | ->], (RegBits_val_01 SO) as [-> | ->];
    reflexivity.
Qed.

Lemma u32_mod_24 (x : Z) : u32 x mod 2 ^ 24 = x mod 2 ^ 24.
Proof. unfold u32. apply Z.mod_mod_divide. exists (2 ^ 8). reflexivity. Qed.

Lemma interval_word_selector (v : Z) (b : AD5932_IncIntervall_t) :
  2 <= u16 v <= 2047 ->
  selector (match b with
            | WAVE_OUT_BASED => ControlRegs_val AD5932_TINT_WCYCLES + u16 v
            | MCLK_INP_BASED => u16 v
            end) <> 1.
Proof.
  intros Hv. destruct b.
  - rewrite selector_reg_word by lia. discriminate.
  - unfold selector. rewrite shiftr_12, Z.div_small by lia. discriminate.
Qed.

Lemma count_word_selector (v : Z) :
  2 <= u16 v <= 4095 ->
  selector (ControlRegs_val AD5932_NINCR + u16 v) = 1.
Proof. intros Hv. rewrite selector_reg_word by lia. reflexivity. Qed.

Section FreeBusProperties.

Context {P : Platform}.
Hypothesis bus_free : forall p h, SSP_GetTransferStatus p h = SSP_STATUS_CLEAR.

(** X11.  On a free bus, for any frequency the setters accept and a clock
    0 < mclk < 2^32, the start-frequency words carry selectors 1100 and 1101
    and the incrementing delta-frequency words selectors 0010 and 0011; in
    both cases the payloads put together as high*4096 + low give
    floor(f * 2^24 / mclk) modulo 2^24: what the quotient has above bit 23
    is dropped without any error. *)
Theorem frequency_words_wrap_at_24_bits (s : state) (f : Z) :
  0 <= f <= 0x7FFFFFFF -> 0 < ad5932MCLK s < 2 ^ 32 ->
  let acc := (f * 2 ^ 24 / ad5932MCLK s) mod 2 ^ 24 in
  (1 <= f ->
   exists s' lo hi,
     AD5932_SetStartFrequency f s = Some (0, s') /\
     transfers (history s') = transfers (history s) ++ [lo; hi] /\
     selector lo = 12 /\ selector hi = 13 /\
     payload hi * 4096 + payload lo = acc) /\
  (exists s' lo hi,
     AD5932_SetDeltaFrequency f INCREMENTAL_SWEEP s = Some (0, s') /\
     transfers (history s') = transfers (history s) ++ [lo; hi] /\
     selector lo = 2 /\ selector hi = 3 /\
     payload hi * 4096 + payload lo = acc).
Proof.
  intros Hf Hm acc.
  assert (Hu : u32 f = f) by (apply u32_small; lia).
  assert (Hnz : u64 (ad5932MCLK s) <> 0) by (rewrite u64_small; lia).
  pose proof (accu_u32 f (ad5932MCLK s) Hf Hm) as Hacc.
  set (tmp := accu f (ad5932MCLK s)) in *.
  assert (Hrebuild : forall lo hi,
             payload (hi_word hi tmp) * 4096 + payload (lo_word lo tmp) = acc).
  { intros lo hi. rewrite payloads_rebuild, Hacc. apply u32_mod_24. }
  assert (Hlo : forall reg, selector (lo_word reg tmp) = ControlRegs_val reg / 4096).
  { intros reg. rewrite lo_word_eq. apply selector_reg_word.
    apply Z.mod_pos_bound. lia. }
  assert (Hhi : forall reg, selector (hi_word reg tmp) = ControlRegs_val reg / 4096).
  { intros reg. rewrite hi_word_eq. apply selector_reg_word.
    apply Z.mod_pos_bound. lia. }
  split.
  - intros H1.
    exists (push_cmd s (hi_word AD5932_FSTART_HI tmp)
              (frame (lo_word AD5932_FSTART_LO tmp)
               ++ frame (hi_word AD5932_FSTART_HI tmp))),
      (lo_word AD5932_FSTART_LO tmp), (hi_word AD5932_FSTART_HI tmp).
    split.
    { rewrite (SetStartFrequency_free bus_free) by (rewrite ?Hu; lia || assumption).
      rewrite Hu. reflexivity. }
    split; [run; rewrite !transfers_app, !transfers_frame; reflexivity|].
    split; [rewrite Hlo; reflexivity|].
    split; [rewrite Hhi; reflexivity|apply Hrebuild].
  - exists (push_cmd s (hi_word AD5932_DFREQ_HI tmp)
              (frame (lo_word AD5932_DFREQ_LO tmp)
               ++ frame (hi_word AD5932_DFREQ_HI tmp))),
      (lo_word AD5932_DFREQ_LO tmp), (hi_word AD5932_DFREQ_HI tmp).
    split.
    { rewrite (SetDeltaFrequency_free bus_free) by (rewrite ?Hu; lia || assumption).
      rewrite Hu. reflexivity. }
    split; [run; rewrite !transfers_app, !transfers_frame; reflexivity|].
    split; [rewrite Hlo; reflexivity|].
    split; [rewrite Hhi; reflexivity|apply Hrebuild].
Qed.

Ltac frequency_steps :=
  repeat
    (run;
     match goal with
     | |- context [AD5932_SetStartFrequency ?v ?s0] =>
         rewrite (SetStartFrequency_free bus_free v s0)
           by (run; rewrite ?u32_idem, ?u32_small by lia;
               first [lia | rewrite u64_small; lia]);
         rewrite ?Z.ltb_irrefl
     | |- context [AD5932_SetDeltaFrequency ?v ?t ?s0] =>
         rewrite (SetDeltaFrequency_free bus_free v t s0)
           by (run; rewrite ?u32_idem, ?u32_small by lia;
               first [lia | rewrite u64_small; lia]);
         rewrite ?Z.ltb_irrefl
     end).

Ltac word_step :=
  run;
  match goal with
  | |- context [AD5932_SetControlRegister ?a ?b ?c ?d ?e ?f ?s0] =>
      let h := fresh "h" in
      destruct (SetControlRegister_free bus_free a b c d e f s0) as [h ->]
  | |- context [AD5932_SetIncrementIntervall ?v ?b ?s0] =>
      let h := fresh "h" in
      destruct (SetIncrementIntervall_free bus_free v b s0) as [h ->];
      [rewrite u32_small, u16_small by lia; lia|]
  | |- context [AD5932_SetIncrement ?v ?s0] =>
      let h := fresh "h" in
      destruct (SetIncrement_free bus_free v s0) as [h ->];
      [rewrite u32_small, u16_small by lia; lia|]
  end.

(** X12.  On a free bus whose transfers report no error, with a clock
    0 < mclk < 2^32 and every parameter in range, the sweep drives CTRL low,
    sends its seven words in the fixed order (control, start low, start high,
    delta low, delta high, interval, count), pulses the trigger exactly when
    the trigger is automatic, and returns 0.  The interval word is
    0x4000 + interval on the waveform-cycle basis and the bare interval on
    the clock-cycle basis. *)
Theorem sweep_sends_seven_words
  (s : state) (startFreq deltaFrerq increment incIntervall : Z)
  (INCRTYPE : AD5932_IncIntervall_t)
  (SWEEPTYPE WAVE_TYPE MSBOUT TRIGGER SYNCSEL SYNCOUT : RegBits_t) :
  (forall p h w, 0 <= SSP_Transfer p h w) ->
  0 < ad5932MCLK s < 2 ^ 32 ->
  1 <= startFreq <= 0x7FFFFFFF -> 0 <= deltaFrerq <= 0x7FFFFFFF ->
  2 <= incIntervall <= 2047 -> 2 <= increment <= 4095 ->
  let mclk := ad5932MCLK s in
  AD5932_SweepGenerator startFreq deltaFrerq increment INCRTYPE
    incIntervall SWEEPTYPE WAVE_TYPE MSBOUT TRIGGER SYNCSEL SYNCOUT s =
  Some (0, push_cmd s (0x1000 + increment)
             ([EvPin SPARE2 false]
              ++ frame (control_word_spec DAC_EN WAVE_TYPE MSBOUT TRIGGER
                                          SYNCSEL SYNCOUT)
              ++ frame (lo_word AD5932_FSTART_LO (accu startFreq mclk))
              ++ frame (hi_word AD5932_FSTART_HI (accu startFreq mclk))
              ++ frame (lo_word AD5932_DFREQ_LO (accu deltaFrerq mclk))
              ++ frame (dfreq_hi_word (accu deltaFrerq mclk)
                                      (SweepType_of_RegBits SWEEPTYPE))
              ++ frame (match INCRTYPE with
                        | WAVE_OUT_BASED => 0x4000 + incIntervall
                        | MCLK_INP_BASED => incIntervall
                        end)
              ++ frame (0x1000 + increment)
              ++ (if RegBits_val TRIGGER =? RegBits_val AUTOMATIC_TRIGGER
                  then pulse else []))).
Proof.
  intros Hok Hm Hs Hd Hi Hn mclk. unfold AD5932_SweepGenerator.
  word_step. rewrite reported_ok by apply Hok. rewrite Z.ltb_irrefl.
  frequency_steps.
  word_step. rewrite reported_ok by apply Hok. rewrite Z.ltb_irrefl.
  word_step. rewrite reported_ok by apply Hok. rewrite Z.ltb_irrefl.
  run.
  rewrite !u32_idem.
  rewrite !(u32_small startFreq), !(u32_small deltaFrerq) by lia.
  rewrite !(u32_small incIntervall), !(u32_small increment) by lia.
  rewrite !(u16_small incIntervall), !(u16_small increment) by lia.
  cbn [ControlRegs_val]. fold mclk.
  destruct (RegBits_val TRIGGER =? RegBits_val AUTOMATIC_TRIGGER); run;
    rewrite !app_assoc3; cbn [app]; reflexivity.
Qed.

(** X13.  On a free bus whose transfers report no error, with a clock
    0 < mclk < 2^32 and a frequency in [1, 2^31-1], single-frequency
    programming drives CTRL low, sends three words (the control word with
    DAC enabled, the given waveform and MSB-out flags, EXTERNAL_TRIGGER, sync
    at end of scan and sync-out enabled, then start low and start high),
    pulses the trigger exactly when its TRIGGER argument is automatic, and
    returns 0: the TRIGGER argument never reaches the control word. *)
Theorem single_frequency_sends_three_words
  (s : state) (frequency : Z) (WAVE_TYPE MSBOUT TRIGGER : RegBits_t) :
  (forall p h w, 0 <= SSP_Transfer p h w) ->
  0 < ad5932MCLK s < 2 ^ 32 ->
  1 <= frequency <= 0x7FFFFFFF ->
  let tmp := accu frequency (ad5932MCLK s) in
  AD5932_SingleFrequencyGenerator frequency WAVE_TYPE MSBOUT TRIGGER s =
  Some (0, push_cmd s (hi_word AD5932_FSTART_HI tmp)
             ([EvPin SPARE2 false]
              ++ frame (control_word_spec DAC_EN WAVE_TYPE MSBOUT
                          EXTERNAL_TRIGGER SYNCSEL_END SYNCOUT_EN)
              ++ frame (lo_word AD5932_FSTART_LO tmp)
              ++ frame (hi_word AD5932_FSTART_HI tmp)
              ++ (if RegBits_val TRIGGER =? RegBits_val AUTOMATIC_TRIGGER
                  then pulse else []))).
Proof.
  intros Hok Hm Hf tmp. unfold AD5932_SingleFrequencyGenerator.
  word_step. rewrite reported_ok by apply Hok. rewrite Z.ltb_irrefl.
  frequency_steps.
  rewrite !u32_idem, !(u32_small frequency) by lia. fold tmp.
  destruct (RegBits_val TRIGGER =? RegBits_val AUTOMATIC_TRIGGER); run;
    rewrite !app_assoc3; cbn [app]; reflexivity.
Qed.

(** X14.  On a free bus where the transfer of the increment-count word
    (selector 0001) reports an error and every other transfer succeeds, a
    sweep with every parameter in range sends all seven words, does not
    pulse the trigger even when the trigger is automatic, and returns -5;
    the six words before stay written. *)
Theorem sweep_stops_on_count_word_error
  (s : state) (startFreq deltaFrerq increment incIntervall : Z)
  (INCRTYPE : AD5932_IncIntervall_t)
  (SWEEPTYPE WAVE_TYPE MSBOUT TRIGGER SYNCSEL SYNCOUT : RegBits_t) :
  (forall p h w, selector w <> 1 -> 0 <= SSP_Transfer p h w) ->
  (forall p h w, selector w = 1 -> SSP_Transfer p h w < 0) ->
  0 < ad5932MCLK s < 2 ^ 32 ->
  1 <= startFreq <= 0x7FFFFFFF -> 0 <= deltaFrerq <= 0x7FFFFFFF ->
  2 <= incIntervall <= 2047 -> 2 <= increment <= 4095 ->
  let mclk := ad5932MCLK s in
  AD5932_SweepGenerator startFreq deltaFrerq increment INCRTYPE
    incIntervall SWEEPTYPE WAVE_TYPE MSBOUT TRIGGER SYNCSEL SYNCOUT s =
  Some (-5, push_cmd s (0x1000 + increment)
              ([EvPin SPARE2 false]
               ++ frame (control_word_spec DAC_EN WAVE_TYPE MSBOUT TRIGGER
                                           SYNCSEL SYNCOUT)
               ++ frame (lo_word AD5932_FSTART_LO (accu startFreq mclk))
               ++ frame (hi_word AD5932_FSTART_HI (accu startFreq mclk))
               ++ frame (lo_word AD5932_DFREQ_LO (accu deltaFrerq mclk))
               ++ frame (dfreq_hi_word (accu deltaFrerq mclk)
                                       (SweepType_of_RegBits SWEEPTYPE))
               ++ frame (match INCRTYPE with
                         | WAVE_OUT_BASED => 0x4000 + incIntervall
                         | MCLK_INP_BASED => incIntervall
                         end)
               ++ frame (0x1000 + increment))).
Proof.
  intros Hok Herr Hm Hs Hd Hi Hn mclk. unfold AD5932_SweepGenerator.
  assert (Hi16 : 2 <= u16 (u32 incIntervall) <= 2047)
    by (rewrite u32_small, u16_small by lia; lia).
  assert (Hn16 : 2 <= u16 (u32 increment) <= 4095)
    by (rewrite u32_small, u16_small by lia; lia).
  word_step.
  rewrite reported_ok
    by (apply Hok; rewrite control_word_spec_selector; discriminate).
  rewrite Z.ltb_irrefl.
  frequency_steps.
  word_step.
  rewrite reported_ok by (apply Hok; apply interval_word_selector; exact Hi16).
  rewrite Z.ltb_irrefl.
  word_step.
  match goal with
  | |- context [reported ?r] =>
      assert (Hneg : r < 0) by (apply Herr; apply count_word_selector; exact Hn16);
      unfold reported; rewrite (Z.min_r 0 r) by lia;
      destruct (Z.ltb_spec r 0) as [_|Hge]; [|lia]
  end.
  run.
  rewrite !u32_idem.
  rewrite !(u32_small startFreq), !(u32_small deltaFrerq) by lia.
  rewrite !(u32_small incIntervall), !(u32_small increment) by lia.
  rewrite !(u16_small incIntervall), !(u16_small increment) by lia.
  cbn [ControlRegs_val]. fold mclk.
  rewrite !app_assoc3. cbn [app]. reflexivity.
Qed.

End FreeBusProperties.

(** ** Further properties: the sweep on a failing or busy bus *)

Section FailingBus.

Context {P : Platform}.

(** X15.  When the bus is free for the control word and its transfer reports
    an error, the sweep stops there, whatever its parameters: CTRL was driven
    low, the control word was framed and sent, nothing else is written, the
    trigger is not pulsed, and -1 is returned. *)
Theorem sweep_stops_on_control_word_error
  (s : state) (startFreq deltaFrerq increment incIntervall : Z)
  (INCRTYPE : AD5932_IncIntervall_t)
  (SWEEPTYPE WAVE_TYPE MSBOUT TRIGGER SYNCSEL SYNCOUT : RegBits_t) :
  let cw := control_word_spec DAC_EN WAVE_TYPE MSBOUT TRIGGER SYNCSEL SYNCOUT in
  let h := history s ++ [EvPin SPARE2 false] in
  SSP_GetTransferStatus (SSPPort s) h = SSP_STATUS_CLEAR ->
  SSP_Transfer (SSPPort s) (h ++ [EvStatus; EvPin SPARE0 false]) cw < 0 ->
  AD5932_SweepGenerator startFreq deltaFrerq increment INCRTYPE incIntervall
    SWEEPTYPE WAVE_TYPE MSBOUT TRIGGER SYNCSEL SYNCOUT s =
  Some (-1, push_cmd s cw ([EvPin SPARE2 false] ++ frame cw)).
Proof. apply SweepGenerator_stops_at_control_word. Qed.

Hypothesis bus_busy :
  forall p h, SSP_GetTransferStatus p h <> SSP_STATUS_CLEAR.

Lemma SendSPICommand_on_busy (w : Z) (s : state) :
  AD5932_SendSPICommand w s = Some (AD5932_PORT_BUSY, push s [EvStatus]).
Proof. apply SendSPICommand_busy, bus_busy. Qed.

Lemma poll_step (s : state) (c : Z) :
  bus_step 0 s (push (with_CMD s c) [EvStatus]).
Proof.
  unfold push, with_CMD. cbn [SSPPort ad5932CMD ad5932MCLK history].
  apply (bus_step_intro 0 s _ _ _ _ [EvStatus]); auto using bus_trace_poll.
Qed.

Lemma PORT_BUSY_nonneg : 0 <= AD5932_PORT_BUSY.
Proof. unfold AD5932_PORT_BUSY. lia. Qed.

Lemma PARAM_ERROR_nonneg : 0 <= AD5932_PARAM_ERROR.
Proof. unfold AD5932_PARAM_ERROR. lia. Qed.

Lemma SetControlRegister_on_busy (D W M T SL SO : RegBits_t) (s : state) :
  exists s',
    AD5932_SetControlRegister D W M T SL SO s = Some (AD5932_PORT_BUSY, s') /\
    bus_step 0 s s'.
Proof.
  rewrite SetControlRegister_word, SendSPICommand_on_busy.
  eexists. split; [reflexivity|apply poll_step].
Qed.

Lemma SetIncrement_on_busy (value : Z) (s : state) :
  exists r s',
    AD5932_SetIncrement value s = Some (r, s') /\ 0 <= r /\ bus_step 0 s s'.
Proof.
  destruct (Z_le_dec 2 (u16 value)); [destruct (Z_le_dec (u16 value) 4095)|].
  - rewrite SetIncrement_word, SendSPICommand_on_busy by lia.
    do 2 eexists. split; [reflexivity|].
    split; [apply PORT_BUSY_nonneg|apply poll_step].
  - rewrite SetIncrement_rejects by lia. do 2 eexists.
    split; [reflexivity|]. split; [apply PARAM_ERROR_nonneg|apply bus_step_refl].
  - rewrite SetIncrement_rejects by lia. do 2 eexists.
    split; [reflexivity|]. split; [apply PARAM_ERROR_nonneg|apply bus_step_refl].
Qed.

Lemma SetIncrementIntervall_on_busy
  (value : Z) (b : AD5932_IncIntervall_t) (s : state) :
  exists r s',
    AD5932_SetIncrementIntervall value b s = Some (r, s') /\
    0 <= r /\ bus_step 0 s s'.
Proof.
  destruct (Z_le_dec 2 (u16 value)); [destruct (Z_le_dec (u16 value) 2047)|].
  - rewrite SetIncrementIntervall_word by lia. cbv zeta.
    rewrite SendSPICommand_on_busy.
    do 2 eexists. split; [reflexivity|].
    split; [apply PORT_BUSY_nonneg|apply poll_step].
  - rewrite SetIncrementIntervall_rejects by lia. do 2 eexists.
    split; [reflexivity|]. split; [apply PARAM_ERROR_nonneg|apply bus_step_refl].
  - rewrite SetIncrementIntervall_rejects by lia. do 2 eexists.
    split; [reflexivity|]. split; [apply PARAM_ERROR_nonneg|apply bus_step_refl].
Qed.

Lemma SetStartFrequency_on_busy (value : Z) (s : state) :
  u64 (ad5932MCLK s) <> 0 ->
  exists r s',
    AD5932_SetStartFrequency value s = Some (r, s') /\
    0 <= r /\ bus_step 0 s s'.
Proof.
  intros Hm.
  destruct (Z_le_dec 1 (u32 value)); [destruct (Z_le_dec (u32 value) 0x7FFFFFFF)|].
  - unfold AD5932_SetStartFrequency, div_u64. run.
    destruct (Z.gtb_spec (u32 value) 0x7FFFFFFF), (Z.ltb_spec (u32 value) 1);
      try lia.
    cbn [orb]. apply Z.eqb_neq in Hm. rewrite Hm. run.
    rewrite SendSPICommand_on_busy. rewrite Z.eqb_refl.
    do 2 eexists. split; [reflexivity|].
    split; [apply PORT_BUSY_nonneg|].
    match goal with
    | |- bus_step 0 s (push (mkState _ ?c _ _) _) => apply (poll_step s c)
    end.
  - rewrite SetStartFrequency_rejects by lia. do 2 eexists.
    split; [reflexivity|]. split; [apply PARAM_ERROR_nonneg|apply bus_step_refl].
  - rewrite SetStartFrequency_rejects by lia. do 2 eexists.
    split; [reflexivity|]. split; [apply PARAM_ERROR_nonneg|apply bus_step_refl].
Qed.

Lemma SetDeltaFrequency_on_busy
  (value : Z) (t : AD5932_SweepType_t) (s : state) :
  u64 (ad5932MCLK s) <> 0 ->
  exists r s',
    AD5932_SetDeltaFrequency value t s = Some (r, s') /\
    0 <= r /\ bus_step 0 s s'.
Proof.
  intros Hm.
  destruct (Z_le_dec (u32 value) 0x7FFFFFFF).
  - unfold AD5932_SetDeltaFrequency, div_u64. run.
    destruct (Z.gtb_spec (u32 value) 0x7FFFFFFF); try lia.
    apply Z.eqb_neq in Hm. rewrite Hm. run.
    rewrite SendSPICommand_on_busy. rewrite Z.eqb_refl.
    do 2 eexists. split; [reflexivity|].
    split; [apply PORT_BUSY_nonneg|].
    match goal with
    | |- bus_step 0 s (push (mkState _ ?c _ _) _) => apply (poll_step s c)
    end.
  - rewrite SetDeltaFrequency_rejects by lia. do 2 eexists.
    split; [reflexivity|]. split; [apply PARAM_ERROR_nonneg|apply bus_step_refl].
Qed.

(** X16.  On a bus that is busy at every poll, with a stored clock that is
    not 0, a sweep with any parameters sends no word at all and still
    returns 0, pulsing the trigger when the trigger is automatic: busy is
    never reported to the caller. *)
Theorem sweep_on_busy_bus
  (s : state) (startFreq deltaFrerq increment incIntervall : Z)
  (INCRTYPE : AD5932_IncIntervall_t)
  (SWEEPTYPE WAVE_TYPE MSBOUT TRIGGER SYNCSEL SYNCOUT : RegBits_t) :
  u64 (ad5932MCLK s) <> 0 ->
  exists s',
    AD5932_SweepGenerator startFreq deltaFrerq increment INCRTYPE incIntervall
      SWEEPTYPE WAVE_TYPE MSBOUT TRIGGER SYNCSEL SYNCOUT s = Some (0, s') /\
    sequencer_run 0 TRIGGER s 0 s' /\
    transfers (history s') = transfers (history s).
Proof.
  intros Hm.
  assert (Hget : exists s',
             AD5932_SweepGenerator startFreq deltaFrerq increment INCRTYPE
               incIntervall SWEEPTYPE WAVE_TYPE MSBOUT TRIGGER SYNCSEL SYNCOUT s
             = Some (0, s') /\ sequencer_run 0 TRIGGER s 0 s').
  { unfold AD5932_SweepGenerator. run.
    match goal with
    | |- context [AD5932_SetControlRegister ?a ?b ?c ?d ?e ?f ?s0] =>
        destruct (SetControlRegister_on_busy a b c d e f s0) as (s1 & -> & B1)
    end.
    change (AD5932_PORT_BUSY <? 0) with false. cbv beta iota.
    assert (Hm1 : u64 (ad5932MCLK s1) <> 0).
    { destruct B1 as (_ & Hc & _). rewrite Hc. exact Hm. }
    destruct (SetStartFrequency_on_busy (u32 startFreq) s1 Hm1)
      as (r2 & s2 & -> & Hr2 & B2).
    rewrite (not_negative r2 Hr2).
    pose proof (bus_step_trans 0 0 _ _ _ B1 B2) as B12.
    assert (Hm2 : u64 (ad5932MCLK s2) <> 0).
    { destruct B2 as (_ & Hc & _). rewrite Hc. exact Hm1. }
    destruct (SetDeltaFrequency_on_busy (u32 deltaFrerq)
                (SweepType_of_RegBits SWEEPTYPE) s2 Hm2)
      as (r3 & s3 & -> & Hr3 & B3).
    rewrite (not_negative r3 Hr3).
    pose proof (bus_step_trans _ 0 _ _ _ B12 B3) as B123.
    destruct (SetIncrementIntervall_on_busy (u32 incIntervall) INCRTYPE s3)
      as (r4 & s4 & -> & Hr4 & B4).
    rewrite (not_negative r4 Hr4).
    pose proof (bus_step_trans _ 0 _ _ _ B123 B4) as B1234.
    destruct (SetIncrement_on_busy (u32 increment) s4)
      as (r5 & s5 & -> & Hr5 & B5).
    rewrite (not_negative r5 Hr5).
    pose proof (bus_step_trans _ 0 _ _ _ B1234 B5) as Ball.
    destruct (RegBits_val TRIGGER =? RegBits_val AUTOMATIC_TRIGGER) eqn:Hauto;
      run; eexists; (split; [reflexivity|]).
    - apply (sequencer_finish_pulse _ 0 _ _ _ _ Ball); [cbn; lia|exact Hauto].
    - apply (sequencer_finish_quiet _ 0 _ _ _ Ball); [cbn; lia|exact Hauto]. }
  destruct Hget as (s' & Hrun & Hseq).
  exists s'. split; [exact Hrun|]. split; [exact Hseq|].
  destruct Hseq as (_ & _ & evs & (_ & _ & _ & Hlen) & Hh).
  rewrite Hh, !transfers_app.
  destruct (transfers evs); [|cbn in Hlen; lia].
  destruct ((0 =? 0) && (RegBits_val TRIGGER =? RegBits_val AUTOMATIC_TRIGGER));
    cbn [transfers pulse app]; rewrite ?app_nil_r; reflexivity.
Qed.

End FailingBus.

(** ** The further properties at concrete inputs *)

Lemma busy_bus_busy :
  forall p h, @SSP_GetTransferStatus busy_bus p h <> @SSP_STATUS_CLEAR busy_bus.
Proof. intros p h. cbn. discriminate. Defined.

Lemma increment_count_setter_witness :
  (u16 1 < 2 \/ 4095 < u16 1) /\
  @AD5932_SetIncrement ideal_bus 1 (ready 50000000) =
    Some (AD5932_PARAM_ERROR, ready 50000000) /\
  2 <= u16 100 <= 4095 /\
  selector (0x1000 + u16 100) = 1 /\
  payload (0x1000 + u16 100) = u16 100.
Proof.
  assert (H1 : u16 1 < 2 \/ 4095 < u16 1) by (left; reflexivity).
  assert (H2 : 2 <= u16 100 <= 4095) by (vm_compute; split; discriminate).
  pose proof (@increment_count_setter ideal_bus 1 (ready 50000000)) as [Hrej _].
  pose proof (@increment_count_setter ideal_bus 100 (ready 50000000)) as [_ Hacc].
  destruct (Hacc H2) as (Hsel & Hpay & _).
  split; [exact H1|]. split; [exact (Hrej H1)|]. split; [exact H2|].
  split; [exact Hsel|exact Hpay].
Defined.

Lemma increment_interval_setter_witness :
  (u16 2048 < 2 \/ 2047 < u16 2048) /\
  @AD5932_SetIncrementIntervall ideal_bus 2048 MCLK_INP_BASED (ready 50000000) =
    Some (AD5932_PARAM_ERROR, ready 50000000) /\
  2 <= u16 2000 <= 2047 /\
  selector (u16 2000) = 0 /\
  payload (u16 2000) = u16 2000.
Proof.
  assert (H1 : u16 2048 < 2 \/ 2047 < u16 2048) by (right; reflexivity).
  assert (H2 : 2 <= u16 2000 <= 2047) by (vm_compute; split; discriminate).
  pose proof (@increment_interval_setter ideal_bus 2048 MCLK_INP_BASED
                (ready 50000000)) as [Hrej _].
  pose proof (@increment_interval_setter ideal_bus 2000 MCLK_INP_BASED
                (ready 50000000)) as [_ Hacc].
  destruct (Hacc H2) as (Hsel & Hpay & _).
  split; [exact H1|]. split; [exact (Hrej H1)|]. split; [exact H2|].
  split; [exact Hsel|exact Hpay].
Defined.

Lemma frequency_setters_never_negative_witness :
  exists s',
    @AD5932_SetStartFrequency faulty_bus 1000 (ready 50000000) = Some (0, s') /\
    (0 = 0 \/ 0 = AD5932_PORT_BUSY \/ 0 = AD5932_PARAM_ERROR).
Proof.
  assert (H : exists s',
             @AD5932_SetStartFrequency faulty_bus 1000 (ready 50000000) =
             Some (0, s')) by (eexists; vm_compute; reflexivity).
  destruct H as [s' H]. exists s'. split; [exact H|].
  exact (proj1 (@frequency_setters_never_negative faulty_bus 1000
                  INCREMENTAL_SWEEP (ready 50000000) s' 0) H).
Defined.

Lemma sweep_return_codes_witness :
  exists s',
    @AD5932_SweepGenerator count_faulty_bus 1000 1000 2 WAVE_OUT_BASED 2000
      (RegBits_of_SweepType INCREMENTAL_SWEEP)
      SINE_OUT MSBOUT_EN AUTOMATIC_TRIGGER SYNCSEL_END SYNCOUT_EN
      (ready 50000000) = Some (-5, s') /\
    (-5 = 0 \/ -5 = -1 \/ -5 = -4 \/ -5 = -5).
Proof.
  assert (H : exists s',
             @AD5932_SweepGenerator count_faulty_bus 1000 1000 2 WAVE_OUT_BASED
               2000 (RegBits_of_SweepType INCREMENTAL_SWEEP)
               SINE_OUT MSBOUT_EN AUTOMATIC_TRIGGER SYNCSEL_END SYNCOUT_EN
               (ready 50000000) = Some (-5, s'))
    by (eexists; vm_compute; reflexivity).
  destruct H as [s' H]. exists s'. split; [exact H|].
  exact (@sweep_return_codes count_faulty_bus (ready 50000000) s' (-5)
           1000 1000 2 2000 WAVE_OUT_BASED
           (RegBits_of_SweepType INCREMENTAL_SWEEP)
           SINE_OUT MSBOUT_EN AUTOMATIC_TRIGGER SYNCSEL_END SYNCOUT_EN H).
Defined.

Lemma frequency_setter_undefined_iff_witness :
  (1 <= u32 1000 <= 0x7FFFFFFF /\ u64 (ad5932MCLK power_up) = 0) /\
  @AD5932_SetStartFrequency ideal_bus 1000 power_up = None /\
  @AD5932_SetDeltaFrequency ideal_bus 1000 INCREMENTAL_SWEEP power_up = None.
Proof.
  assert (H : 1 <= u32 1000 <= 0x7FFFFFFF /\ u64 (ad5932MCLK power_up) = 0)
    by (vm_compute; repeat split; discriminate).
  assert (H' : u32 1000 <= 0x7FFFFFFF /\ u64 (ad5932MCLK power_up) = 0)
    by (vm_compute; repeat split; discriminate).
  pose proof (@frequency_setter_undefined_iff ideal_bus 1000 INCREMENTAL_SWEEP
                power_up) as [[_ Hs] [_ Hd]].
  split; [exact H|]. split; [exact (Hs H)|exact (Hd H')].
Defined.

Lemma sweep_bus_discipline_witness :
  exists s',
    @AD5932_SweepGenerator count_faulty_bus 1000 1000 2 WAVE_OUT_BASED 2000
      (RegBits_of_SweepType INCREMENTAL_SWEEP)
      SINE_OUT MSBOUT_EN AUTOMATIC_TRIGGER SYNCSEL_END SYNCOUT_EN
      (ready 50000000) = Some (-5, s') /\
    sequencer_run 7 AUTOMATIC_TRIGGER (ready 50000000) (-5) s'.
Proof.
  assert (H : exists s',
             @AD5932_SweepGenerator count_faulty_bus 1000 1000 2 WAVE_OUT_BASED
               2000 (RegBits_of_SweepType INCREMENTAL_SWEEP)
               SINE_OUT MSBOUT_EN AUTOMATIC_TRIGGER SYNCSEL_END SYNCOUT_EN
               (ready 50000000) = Some (-5, s'))
    by (eexists; vm_compute; reflexivity).
  destruct H as [s' H]. exists s'. split; [exact H|].
  exact (@sweep_bus_discipline count_faulty_bus (ready 50000000) s' (-5)
           1000 1000 2 2000 WAVE_OUT_BASED
           (RegBits_of_SweepType INCREMENTAL_SWEEP)
           SINE_OUT MSBOUT_EN AUTOMATIC_TRIGGER SYNCSEL_END SYNCOUT_EN H).
Defined.

Lemma single_frequency_bus_discipline_witness :
  exists s',
    @AD5932_SingleFrequencyGenerator faulty_bus 1000 SINE_OUT MSBOUT_EN
      AUTOMATIC_TRIGGER (ready 50000000) = Some (-1, s') /\
    sequencer_run 3 AUTOMATIC_TRIGGER (ready 50000000) (-1) s' /\
    (-1 = 0 \/ -1 = -1).
Proof.
  assert (H : exists s',
             @AD5932_SingleFrequencyGenerator faulty_bus 1000 SINE_OUT MSBOUT_EN
               AUTOMATIC_TRIGGER (ready 50000000) = Some (-1, s'))
    by (eexists; vm_compute; reflexivity).
  destruct H as [s' H]. exists s'. split; [exact H|].
  exact (@single_frequency_bus_discipline faulty_bus (ready 50000000) s' (-1)
           1000 SINE_OUT MSBOUT_EN AUTOMATIC_TRIGGER H).
Defined.

Lemma frequency_words_wrap_at_24_bits_witness :
  (forall p h, @SSP_GetTransferStatus ideal_bus p h = @SSP_STATUS_CLEAR ideal_bus) /\
  0 <= 60000000 <= 0x7FFFFFFF /\
  0 < ad5932MCLK (ready 50000000) < 2 ^ 32 /\
  1 <= 60000000 /\
  exists s' lo hi,
    @AD5932_SetStartFrequency ideal_bus 60000000 (ready 50000000) =
      Some (0, s') /\
    transfers (history s') = transfers (history (ready 50000000)) ++ [lo; hi] /\
    selector lo = 12 /\ selector hi = 13 /\
    payload hi * 4096 + payload lo =
    (60000000 * 2 ^ 24 / ad5932MCLK (ready 50000000)) mod 2 ^ 24.
Proof.
  assert (H1 : 0 <= 60000000 <= 0x7FFFFFFF) by lia.
  assert (H2 : 0 < ad5932MCLK (ready 50000000) < 2 ^ 32) by (cbn; lia).
  assert (H3 : 1 <= 60000000) by lia.
  split; [exact ideal_bus_free|].
  split; [exact H1|]. split; [exact H2|]. split; [exact H3|].
  exact (proj1 (@frequency_words_wrap_at_24_bits ideal_bus ideal_bus_free
                  (ready 50000000) 60000000 H1 H2) H3).
Defined.

Lemma sweep_sends_seven_words_witness :
  (forall p h, @SSP_GetTransferStatus ideal_bus p h = @SSP_STATUS_CLEAR ideal_bus) /\
  (forall p h w, 0 <= @SSP_Transfer ideal_bus p h w) /\
  0 < ad5932MCLK (ready 50000000) < 2 ^ 32 /\
  1 <= 1000 <= 0x7FFFFFFF /\ 0 <= 500 <= 0x7FFFFFFF /\
  2 <= 2000 <= 2047 /\ 2 <= 100 <= 4095 /\
  exists s',
    @AD5932_SweepGenerator ideal_bus 1000 500 100 MCLK_INP_BASED 2000
      (RegBits_of_SweepType DECREMENTAL_SWEEP)
      TRIANGLE_OUT MSBOUT_DISABLE EXTERNAL_TRIGGER SYNCSEL_SUBSEQVENT
      SYNCOUT_DISABLE (ready 50000000) = Some (0, s') /\
    transfers (history s') =
      [0x0CF3; 0xC14F; 0xD000; 0x20A7; 0x3800; 0x07D0; 0x1064].
Proof.
  assert (H1 : 0 < ad5932MCLK (ready 50000000) < 2 ^ 32) by (cbn; lia).
  assert (H2 : 1 <= 1000 <= 0x7FFFFFFF) by lia.
  assert (H3 : 0 <= 500 <= 0x7FFFFFFF) by lia.
  assert (H4 : 2 <= 2000 <= 2047) by lia.
  assert (H5 : 2 <= 100 <= 4095) by lia.
  split; [exact ideal_bus_free|]. split; [exact ideal_bus_ok|].
  split; [exact H1|]. split; [exact H2|]. split; [exact H3|].
  split; [exact H4|]. split; [exact H5|].
  eexists. split.
  - exact (@sweep_sends_seven_words ideal_bus ideal_bus_free (ready 50000000)
             1000 500 100 2000 MCLK_INP_BASED
             (RegBits_of_SweepType DECREMENTAL_SWEEP)
             TRIANGLE_OUT MSBOUT_DISABLE EXTERNAL_TRIGGER SYNCSEL_SUBSEQVENT
             SYNCOUT_DISABLE ideal_bus_ok H1 H2 H3 H4 H5).
  - vm_compute. reflexivity.
Defined.

Lemma single_frequency_sends_three_words_witness :
  (forall p h, @SSP_GetTransferStatus ideal_bus p h = @SSP_STATUS_CLEAR ideal_bus) /\
  (forall p h w, 0 <= @SSP_Transfer ideal_bus p h w) /\
  0 < ad5932MCLK (ready 16000000) < 2 ^ 32 /\
  1 <= 440 <= 0x7FFFFFFF /\
  exists s',
    @AD5932_SingleFrequencyGenerator ideal_bus 440 TRIANGLE_OUT MSBOUT_DISABLE
      EXTERNAL_TRIGGER (ready 16000000) = Some (0, s') /\
    history s' =
      [EvPin SPARE2 false] ++ frame 0x0CFF ++ frame 0xC1CD ++ frame 0xD000.
Proof.
  assert (H1 : 0 < ad5932MCLK (ready 16000000) < 2 ^ 32) by (cbn; lia).
  assert (H2 : 1 <= 440 <= 0x7FFFFFFF) by lia.
  split; [exact ideal_bus_free|]. split; [exact ideal_bus_ok|].
  split; [exact H1|]. split; [exact H2|].
  eexists. split.
  - exact (@single_frequency_sends_three_words ideal_bus ideal_bus_free
             (ready 16000000) 440 TRIANGLE_OUT MSBOUT_DISABLE EXTERNAL_TRIGGER
             ideal_bus_ok H1 H2).
  - vm_compute. reflexivity.
Defined.

Lemma count_faulty_bus_free :
  forall p h,
    @SSP_GetTransferStatus count_faulty_bus p h =
    @SSP_STATUS_CLEAR count_faulty_bus.
Proof. intros p h. reflexivity. Defined.

Lemma count_faulty_bus_ok :
  forall p h w, selector w <> 1 -> 0 <= @SSP_Transfer count_faulty_bus p h w.
Proof.
  intros p h w Hsel. cbn [SSP_Transfer count_faulty_bus].
  destruct (Z.eqb_spec (selector w) 1); [contradiction|discriminate].
Defined.

Lemma count_faulty_bus_err :
  forall p h w, selector w = 1 -> @SSP_Transfer count_faulty_bus p h w < 0.
Proof.
  intros p h w Hsel. cbn [SSP_Transfer count_faulty_bus].
  rewrite Hsel. reflexivity.
Defined.

Lemma sweep_stops_on_count_word_error_witness :
  (forall p h,
      @SSP_GetTransferStatus count_faulty_bus p h =
      @SSP_STATUS_CLEAR count_faulty_bus) /\
  (forall p h w, selector w <> 1 -> 0 <= @SSP_Transfer count_faulty_bus p h w) /\
  (forall p h w, selector w = 1 -> @SSP_Transfer count_faulty_bus p h w < 0) /\
  0 < ad5932MCLK (ready 50000000) < 2 ^ 32 /\
  1 <= 1000 <= 0x7FFFFFFF /\ 0 <= 1000 <= 0x7FFFFFFF /\
  2 <= 2000 <= 2047 /\ 2 <= 2 <= 4095 /\
  exists s',
    @AD5932_SweepGenerator count_faulty_bus 1000 1000 2 WAVE_OUT_BASED 2000
      (RegBits_of_SweepType INCREMENTAL_SWEEP)
      SINE_OUT MSBOUT_EN AUTOMATIC_TRIGGER SYNCSEL_END SYNCOUT_EN
      (ready 50000000) = Some (-5, s') /\
    history s' =
      [EvPin SPARE2 false] ++ frame 0x0FDF ++ frame 0xC14F ++ frame 0xD000
      ++ frame 0x214F ++ frame 0x3000 ++ frame 0x47D0 ++ frame 0x1002.
Proof.
  assert (H1 : 0 < ad5932MCLK (ready 50000000) < 2 ^ 32) by (cbn; lia).
  assert (H2 : 1 <= 1000 <= 0x7FFFFFFF) by lia.
  assert (H3 : 0 <= 1000 <= 0x7FFFFFFF) by lia.
  assert (H4 : 2 <= 2000 <= 2047) by lia.
  assert (H5 : 2 <= 2 <= 4095) by lia.
  split; [exact count_faulty_bus_free|]. split; [exact count_faulty_bus_ok|].
  split; [exact count_faulty_bus_err|].
  split; [exact H1|]. split; [exact H2|]. split; [exact H3|].
  split; [exact H4|]. split; [exact H5|].
  eexists. split.
  - exact (@sweep_stops_on_count_word_error count_faulty_bus
             count_faulty_bus_free (ready 50000000) 1000 1000 2 2000
             WAVE_OUT_BASED (RegBits_of_SweepType INCREMENTAL_SWEEP)
             SINE_OUT MSBOUT_EN AUTOMATIC_TRIGGER SYNCSEL_END SYNCOUT_EN
             count_faulty_bus_ok count_faulty_bus_err H1 H2 H3 H4 H5).
  - vm_compute. reflexivity.
Defined.

Lemma sweep_stops_on_control_word_error_witness :
  @SSP_GetTransferStatus faulty_bus (SSPPort (ready 50000000))
    (history (ready 50000000) ++ [EvPin SPARE2 false]) =
    @SSP_STATUS_CLEAR faulty_bus /\
  @SSP_Transfer faulty_bus (SSPPort (ready 50000000))
    ((history (ready 50000000) ++ [EvPin SPARE2 false])
     ++ [EvStatus; EvPin SPARE0 false])
    (control_word_spec DAC_EN SINE_OUT MSBOUT_EN AUTOMATIC_TRIGGER SYNCSEL_END
                       SYNCOUT_EN) < 0 /\
  @AD5932_SweepGenerator faulty_bus 1000 1000 2 WAVE_OUT_BASED 2000
    (RegBits_of_SweepType INCREMENTAL_SWEEP)
    SINE_OUT MSBOUT_EN AUTOMATIC_TRIGGER SYNCSEL_END SYNCOUT_EN
    (ready 50000000) =
  Some (-1, push_cmd (ready 50000000)
              (control_word_spec DAC_EN SINE_OUT MSBOUT_EN AUTOMATIC_TRIGGER
                                 SYNCSEL_END SYNCOUT_EN)
              ([EvPin SPARE2 false]
               ++ frame (control_word_spec DAC_EN SINE_OUT MSBOUT_EN
                           AUTOMATIC_TRIGGER SYNCSEL_END SYNCOUT_EN))).
Proof.
  assert (H1 : @SSP_GetTransferStatus faulty_bus (SSPPort (ready 50000000))
                 (history (ready 50000000) ++ [EvPin SPARE2 false]) =
               @SSP_STATUS_CLEAR faulty_bus) by reflexivity.
  assert (H2 : @SSP_Transfer faulty_bus (SSPPort (ready 50000000))
                 ((history (ready 50000000) ++ [EvPin SPARE2 false])
                  ++ [EvStatus; EvPin SPARE0 false])
                 (control_word_spec DAC_EN SINE_OUT MSBOUT_EN AUTOMATIC_TRIGGER
                    SYNCSEL_END SYNCOUT_EN) < 0) by reflexivity.
  split; [exact H1|]. split; [exact H2|].
  exact (@sweep_stops_on_control_word_error faulty_bus (ready 50000000)
           1000 1000 2 2000 WAVE_OUT_BASED
           (RegBits_of_SweepType INCREMENTAL_SWEEP)
           SINE_OUT MSBOUT_EN AUTOMATIC_TRIGGER SYNCSEL_END SYNCOUT_EN H1 H2).
Defined.

Lemma sweep_on_busy_bus_witness :
  (forall p h, @SSP_GetTransferStatus busy_bus p h <> @SSP_STATUS_CLEAR busy_bus) /\
  u64 (ad5932MCLK (ready 50000000)) <> 0 /\
  exists s',
    @AD5932_SweepGenerator busy_bus 1000 1000 2 WAVE_OUT_BASED 2000
      (RegBits_of_SweepType INCREMENTAL_SWEEP)
      SINE_OUT MSBOUT_EN AUTOMATIC_TRIGGER SYNCSEL_END SYNCOUT_EN
      (ready 50000000) = Some (0, s') /\
    sequencer_run 0 AUTOMATIC_TRIGGER (ready 50000000) 0 s' /\
    transfers (history s') = transfers (history (ready 50000000)).
Proof.
  assert (H : u64 (ad5932MCLK (ready 50000000)) <> 0)
    by (vm_compute; discriminate).
  split; [exact busy_bus_busy|]. split; [exact H|].
  exact (@sweep_on_busy_bus busy_bus busy_bus_busy (ready 50000000)
           1000 1000 2 2000 WAVE_OUT_BASED
           (RegBits_of_SweepType INCREMENTAL_SWEEP)
           SINE_OUT MSBOUT_EN AUTOMATIC_TRIGGER SYNCSEL_END SYNCOUT_EN H).
Defined.

(** ** Further properties: the stored clock *)

Section StoredClock.

Context {P : Platform}.

Lemma driver_call_keeps_clock (s s' : state) :
  driver_call s s' -> ad5932MCLK s' = ad5932MCLK s.
Proof.
  intros [SSPx H|level H|level H|level H|level H|w r H
         |D W M T SL SO r H|v r H|v b r H|v t r H|v r H|H
         |f W M T r H|sf df inc ty iv SW W M T SL SO r H|r H].
  - inversion H. reflexivity.
  - destruct level; inversion H; reflexivity.
  - destruct level; inversion H; reflexivity.
  - destruct level; inversion H; reflexivity.
  - destruct level; inversion H; reflexivity.
  - destruct (SendSPICommand_step w s) as (r0 & s0 & E & B & _).
    rewrite E in H. inversion H; subst. apply B.
  - destruct (SetControlRegister_step D W M T SL SO s) as (r0 & s0 & E & B & _).
    rewrite E in H. inversion H; subst. apply B.
  - destruct (SetIncrement_step v s) as (r0 & s0 & E & B & _).
    rewrite E in H. inversion H; subst. apply B.
  - destruct (SetIncrementIntervall_step v b s) as (r0 & s0 & E & B & _).
    rewrite E in H. inversion H; subst. apply B.
  - pose proof (SetDeltaFrequency_step v t s) as Hs.
    rewrite H in Hs. apply Hs.
  - pose proof (SetStartFrequency_step v s) as Hs.
    rewrite H in Hs. apply Hs.
  - inversion H. reflexivity.
  - pose proof (SingleFrequencyGenerator_run s f W M T) as Hs.
    rewrite H in Hs. apply Hs.
  - pose proof (SweepGenerator_run s sf df inc iv ty SW W M T SL SO) as Hs.
    rewrite H in Hs. apply Hs.
  - change (AD5932_TestSetup s) with
      (AD5932_SweepGenerator 1000 1000 2 WAVE_OUT_BASED 2000
         (RegBits_of_SweepType INCREMENTAL_SWEEP)
         SINE_OUT MSBOUT_EN AUTOMATIC_TRIGGER SYNCSEL_END SYNCOUT_EN s) in H.
    pose proof (SweepGenerator_run s 1000 1000 2 2000 WAVE_OUT_BASED
                  (RegBits_of_SweepType INCREMENTAL_SWEEP)
                  SINE_OUT MSBOUT_EN AUTOMATIC_TRIGGER SYNCSEL_END SYNCOUT_EN)
      as Hs.
    rewrite H in Hs. apply Hs.
Qed.

Lemma driver_calls_keep_clock (s s' : state) :
  driver_calls s s' -> ad5932MCLK s' = ad5932MCLK s.
Proof.
  induction 1 as [s|s s1 s2 _ IH Hcall]; [reflexivity|].
  rewrite (driver_call_keeps_clock s1 s2 Hcall). exact IH.
Qed.

(** X9.  Initialisation, whatever the clock value, drives CTRL low, INT low,
    FSYNC high and STANDBY low, in that order, and stores the clock cut to 32
    bits; it leaves the port and the command word alone.  No other function
    of the driver writes the stored clock: after any number of calls of them
    following the initialisation, on any bus, it is still that value.  So
    when that value is not 0, no sweep, single-frequency programming,
    self-test or frequency setter called at any later point divides by
    zero. *)
Theorem stored_clock_is_written_by_init_only (MCLK : Z) (s : state) :
  exists s0,
    AD5932_Init MCLK s = Some (tt, s0) /\
    SSPPort s0 = SSPPort s /\
    ad5932CMD s0 = ad5932CMD s /\
    ad5932MCLK s0 = u32 MCLK /\
    history s0 = history s ++ [EvPin SPARE2 false; EvPin SPARE3 false;
                               EvPin SPARE0 true; EvPin SPARE1 false] /\
    forall s1,
      driver_calls s0 s1 ->
      ad5932MCLK s1 = u32 MCLK /\
      (u32 MCLK <> 0 ->
       (forall startFreq deltaFrerq increment INCRTYPE incIntervall
               SWEEPTYPE WAVE_TYPE MSBOUT TRIGGER SYNCSEL SYNCOUT,
           AD5932_SweepGenerator startFreq deltaFrerq increment INCRTYPE
             incIntervall SWEEPTYPE WAVE_TYPE MSBOUT TRIGGER SYNCSEL SYNCOUT
             s1 <> None) /\
       (forall frequency WAVE_TYPE MSBOUT TRIGGER,
           AD5932_SingleFrequencyGenerator frequency WAVE_TYPE MSBOUT TRIGGER
             s1 <> None) /\
       AD5932_TestSetup s1 <> None /\
       (forall value, AD5932_SetStartFrequency value s1 <> None) /\
       (forall value SweepType,
           AD5932_SetDeltaFrequency value SweepType s1 <> None)).
Proof.
  destruct (Init_stores_clock MCLK s) as [Hinit Hrange].
  eexists. split; [exact Hinit|].
  cbn [SSPPort ad5932CMD ad5932MCLK history].
  do 4 (split; [reflexivity|]).
  intros s1 Hcalls.
  pose proof (driver_calls_keep_clock _ _ Hcalls) as Hclk.
  cbn [ad5932MCLK] in Hclk.
  split; [exact Hclk|]. intros Hnz.
  assert (Hdiv : u64 (ad5932MCLK s1) <> 0)
    by (rewrite Hclk, u64_small by lia; exact Hnz).
  repeat split.
  - intros sf df inc ty iv SW W M T SL SO E.
    pose proof (SweepGenerator_run s1 sf df inc iv ty SW W M T SL SO) as Hs.
    rewrite E in Hs. contradiction.
  - intros f W M T E.
    pose proof (SingleFrequencyGenerator_run s1 f W M T) as Hs.
    rewrite E in Hs. contradiction.
  - intros E.
    change (AD5932_TestSetup s1) with
      (AD5932_SweepGenerator 1000 1000 2 WAVE_OUT_BASED 2000
         (RegBits_of_SweepType INCREMENTAL_SWEEP)
         SINE_OUT MSBOUT_EN AUTOMATIC_TRIGGER SYNCSEL_END SYNCOUT_EN s1) in E.
    pose proof (SweepGenerator_run s1 1000 1000 2 2000 WAVE_OUT_BASED
                  (RegBits_of_SweepType INCREMENTAL_SWEEP)
                  SINE_OUT MSBOUT_EN AUTOMATIC_TRIGGER SYNCSEL_END SYNCOUT_EN)
      as Hs.
    rewrite E in Hs. contradiction.
  - intros v E. pose proof (SetStartFrequency_step v s1) as Hs.
    rewrite E in Hs. destruct Hs as [_ Hz]. contradiction.
  - intros v t E. pose proof (SetDeltaFrequency_step v t s1) as Hs.
    rewrite E in Hs. destruct Hs as [_ Hz]. contradiction.
Qed.

End StoredClock.

Lemma stored_clock_is_written_by_init_only_witness :
  u32 50000000 <> 0 /\
  exists s0 s1,
    AD5932_Init 50000000 power_up = Some (tt, s0) /\
    @AD5932_TestSetup ideal_bus s0 = Some (0, s1) /\
    @driver_calls ideal_bus s0 s1 /\
    ad5932MCLK s1 = u32 50000000 /\
    @AD5932_SweepGenerator ideal_bus 1000 1000 2 WAVE_OUT_BASED 2000
      (RegBits_of_SweepType INCREMENTAL_SWEEP)
      SINE_OUT MSBOUT_EN AUTOMATIC_TRIGGER SYNCSEL_END SYNCOUT_EN s1 <> None.
Proof.
  assert (Hnz : u32 50000000 <> 0) by (vm_compute; discriminate).
  split; [exact Hnz|].
  destruct (@stored_clock_is_written_by_init_only ideal_bus 50000000 power_up)
    as (s0 & Hinit & _ & _ & _ & _ & Hlater).
  assert (Htest : exists s1, @AD5932_TestSetup ideal_bus s0 = Some (0, s1)).
  { vm_compute in Hinit. injection Hinit as <-.
    eexists. vm_compute. reflexivity. }
  destruct Htest as [s1 Htest].
  assert (Hcalls : @driver_calls ideal_bus s0 s1).
  { apply (calls_more s0 s0 s1); [apply calls_none|].
    exact (call_TestSetup s0 s1 0 Htest). }
  destruct (Hlater s1 Hcalls) as [Hclk Hdef].
  exists s0, s1. split; [exact Hinit|]. split; [exact Htest|].
  split; [exact Hcalls|]. split; [exact Hclk|].
  exact (proj1 (Hdef Hnz) 1000 1000 2 WAVE_OUT_BASED 2000
           (RegBits_of_SweepType INCREMENTAL_SWEEP)
           SINE_OUT MSBOUT_EN AUTOMATIC_TRIGGER SYNCSEL_END SYNCOUT_EN).
Defined.
